(** * Constrained retrieval pipeline of the Istanbul neighbourhood agent

    Shallow embedding of [NeighborhoodAgent.filter_by_constraints],
    [search_with_constraints] and [_dataframe_to_recommendations]
    (src/main.py; src/main_v4.py has the same code without the transit and
    earthquake filters).

    - A pandas row of the catalogue is a record [row]; the data frame is a
      [list row] in catalogue order.  Columns holding simulation output may
      be NaN: they are [option Q], and every comparison with NaN is false.
    - A preference dict maps each key to a Python value [pyval] (None, a
      number, a string or a bool); Python truthiness is [truthy].
    - A Python exception is [Raise TypeError] in the [result] monad.
    - The vector index is an external function [query] from the query text
      and the requested size to a ranked list of index entries, or a raised
      error.  The pipeline returns the list of external calls it made next
      to its result. *)

From Stdlib Require Import List String QArith Bool Lia Lqa.
From Stdlib Require Import PeanoNat Sorting.Permutation Sorting.Sorted.
Import ListNotations.

(* ------------------------------------------------------------------ *)
(** ** Python values and exceptions *)

Inductive pyval : Type :=
| PNone
| PNum (q : Q)
| PStr (s : string)
| PBool (b : bool).

(** [bool(v)] in Python. *)
Definition truthy (v : pyval) : bool :=
  match v with
  | PNone => false
  | PNum q => negb (Qeq_bool q 0)
  | PStr s => negb (String.eqb s EmptyString)
  | PBool b => b
  end.

(** [v is not None]. *)
Definition is_not_none (v : pyval) : bool :=
  match v with PNone => false | _ => true end.

(** [a or b]. *)
Definition py_or (a b : pyval) : pyval := if truthy a then a else b.

Definition bool_to_Q (b : bool) : Q := if b then 1 else 0.

Inductive exc : Type := TypeError.

Inductive result (A : Type) : Type :=
| Ok (a : A)
| Raise (e : exc).
Arguments Ok {A} a.
Arguments Raise {A} e.

Definition bind {A B} (m : result A) (k : A -> result B) : result B :=
  match m with Ok a => k a | Raise e => Raise e end.

Notation "x <- m ;; k" := (bind m (fun x => k))
  (at level 61, m at next level, right associativity).

(** A numeric operand of [*] or [-] against a float column/value:
    numbers and bools are numbers, anything else raises [TypeError]. *)
Definition num_operand (v : pyval) : result Q :=
  match v with
  | PNum q => Ok q
  | PBool b => Ok (bool_to_Q b)
  | _ => Raise TypeError
  end.

(** The right-hand side of a comparison [series >= v]: comparing a numeric
    column with [None] yields False on every row, with a string it raises. *)
Definition threshold (v : pyval) : result (option Q) :=
  match v with
  | PNone => Ok None
  | PNum q => Ok (Some q)
  | PBool b => Ok (Some (bool_to_Q b))
  | PStr _ => Raise TypeError
  end.

(* ------------------------------------------------------------------ *)
(** ** Data model *)

(** One row of [self.df] (the columns the pipeline reads). *)
Record row : Type := mkRow {
  Mahalle : string;
  Ilce : string;
  Avg_Rent_Per_SqM : Q;
  park : Q;
  school : Q;
  restaurant : Q;
  cafe : Q;
  Green_Index : Q;
  Society_Welfare_Index : Q;
  Nufus : Q;
  total_stations : Q;
  can_kaybi_sayisi : option Q;
  cok_agir_hasarli_bina_sayisi : option Q;
  agir_hasarli_bina_sayisi : option Q
}.

(** The preference dict produced by [extract_preferences_with_llm]; a
    missing key reads as [None] through [preferences.get]. *)
Record prefs : Type := mkPrefs {
  monthly_budget : pyval;
  apartment_size_sqm : pyval;
  min_parks : pyval;
  min_schools : pyval;
  min_restaurants : pyval;
  min_cafes : pyval;
  min_green_index : pyval;
  max_population : pyval;
  min_total_stations : pyval;
  max_casualties : pyval;
  max_severely_damaged : pyval;
  max_heavily_damaged : pyval;
  earthquake_safe : pyval;
  preferences_text : pyval
}.

(** [_get_empty_preferences]. *)
Definition empty_preferences : prefs :=
  mkPrefs PNone PNone PNone PNone PNone PNone PNone PNone PNone PNone PNone
          PNone PNone PNone.

(** An entry of [filters_applied]: the f-string's label and the value it
    formats (the source labels use the characters >= and <= as glyphs). *)
Record desc : Type := Desc { desc_label : string; desc_value : pyval }.

(* ------------------------------------------------------------------ *)
(** ** [filter_by_constraints] *)

(** [df[col] >= v] *)
Definition ge_pred (col : row -> Q) (v : pyval) : result (row -> bool) :=
  t <- threshold v ;;
  Ok (fun r => match t with Some q => Qle_bool q (col r) | None => false end).

(** [df[col] <= v] *)
Definition le_pred (col : row -> Q) (v : pyval) : result (row -> bool) :=
  t <- threshold v ;;
  Ok (fun r => match t with Some q => Qle_bool (col r) q | None => false end).

(** [df[col] <= v] on a column that may hold NaN. *)
Definition le_nan_pred (col : row -> option Q) (v : pyval)
  : result (row -> bool) :=
  t <- threshold v ;;
  Ok (fun r => match col r, t with
               | Some c, Some q => Qle_bool c q
               | _, _ => false
               end).

(** [df['Avg_Rent_Per_SqM'] * apartment_size <= monthly_budget] *)
Definition budget_pred (apartment_size monthly_budget : pyval)
  : result (row -> bool) :=
  s <- num_operand apartment_size ;;
  t <- threshold monthly_budget ;;
  Ok (fun r => match t with
               | Some b => Qle_bool (Avg_Rent_Per_SqM r * s) b
               | None => false
               end).

(** The working data frame and [filters_applied]. *)
Definition state : Type := (list row * list desc)%type.

(** [if guard: filtered_df = filtered_df[pred]; filters_applied.append(d)] *)
Definition apply_filter (guard : bool) (pred : result (row -> bool))
    (d : desc) (st : state) : result state :=
  if guard then
    f <- pred ;; Ok (filter f (fst st), snd st ++ [d])
  else Ok st.

Definition filter_by_constraints (p : prefs) (df : list row) : result state :=
  let apartment_size := py_or (apartment_size_sqm p) (PNum 80) in
  st <- apply_filter (truthy (monthly_budget p))
          (budget_pred apartment_size (monthly_budget p))
          (Desc "Budget: <=" (monthly_budget p)) (df, []) ;;
  st <- apply_filter (truthy (min_parks p))
          (ge_pred park (min_parks p))
          (Desc "Parks: >=" (min_parks p)) st ;;
  st <- apply_filter (truthy (min_schools p))
          (ge_pred school (min_schools p))
          (Desc "Schools: >=" (min_schools p)) st ;;
  st <- apply_filter (truthy (min_restaurants p))
          (ge_pred restaurant (min_restaurants p))
          (Desc "Restaurants: >=" (min_restaurants p)) st ;;
  st <- apply_filter (truthy (min_cafes p))
          (ge_pred cafe (min_cafes p))
          (Desc "Cafes: >=" (min_cafes p)) st ;;
  st <- apply_filter (truthy (min_green_index p))
          (ge_pred Green_Index (min_green_index p))
          (Desc "Green Index: >=" (min_green_index p)) st ;;
  st <- apply_filter (truthy (max_population p))
          (le_pred Nufus (max_population p))
          (Desc "Population: <=" (max_population p)) st ;;
  st <- apply_filter (truthy (min_total_stations p))
          (ge_pred total_stations (min_total_stations p))
          (Desc "Total Stations (bus+train+transit): >="
             (min_total_stations p)) st ;;
  st <- (if truthy (earthquake_safe p) || is_not_none (max_casualties p)
         then apply_filter (is_not_none (max_casualties p))
                (le_nan_pred can_kaybi_sayisi (max_casualties p))
                (Desc "Max Casualties (earthquake sim): <="
                   (max_casualties p)) st
         else Ok st) ;;
  st <- apply_filter (is_not_none (max_severely_damaged p))
          (le_nan_pred cok_agir_hasarli_bina_sayisi (max_severely_damaged p))
          (Desc "Max Severely Damaged Buildings: <="
             (max_severely_damaged p)) st ;;
  apply_filter (is_not_none (max_heavily_damaged p))
    (le_nan_pred agir_hasarli_bina_sayisi (max_heavily_damaged p))
    (Desc "Max Heavily Damaged Buildings: <=" (max_heavily_damaged p)) st.

(** The same chain read as a table of (guard, predicate, description) rows
    in source order; the casualties row carries its nested guard. *)
Definition constraint_table (p : prefs)
  : list (bool * result (row -> bool) * desc) :=
  let apartment_size := py_or (apartment_size_sqm p) (PNum 80) in
  [ (truthy (monthly_budget p),
     budget_pred apartment_size (monthly_budget p),
     Desc "Budget: <=" (monthly_budget p));
    (truthy (min_parks p), ge_pred park (min_parks p),
     Desc "Parks: >=" (min_parks p));
    (truthy (min_schools p), ge_pred school (min_schools p),
     Desc "Schools: >=" (min_schools p));
    (truthy (min_restaurants p), ge_pred restaurant (min_restaurants p),
     Desc "Restaurants: >=" (min_restaurants p));
    (truthy (min_cafes p), ge_pred cafe (min_cafes p),
     Desc "Cafes: >=" (min_cafes p));
    (truthy (min_green_index p), ge_pred Green_Index (min_green_index p),
     Desc "Green Index: >=" (min_green_index p));
    (truthy (max_population p), le_pred Nufus (max_population p),
     Desc "Population: <=" (max_population p));
    (truthy (min_total_stations p),
     ge_pred total_stations (min_total_stations p),
     Desc "Total Stations (bus+train+transit): >=" (min_total_stations p));
    ((truthy (earthquake_safe p) || is_not_none (max_casualties p))
       && is_not_none (max_casualties p),
     le_nan_pred can_kaybi_sayisi (max_casualties p),
     Desc "Max Casualties (earthquake sim): <=" (max_casualties p));
    (is_not_none (max_severely_damaged p),
     le_nan_pred cok_agir_hasarli_bina_sayisi (max_severely_damaged p),
     Desc "Max Severely Damaged Buildings: <=" (max_severely_damaged p));
    (is_not_none (max_heavily_damaged p),
     le_nan_pred agir_hasarli_bina_sayisi (max_heavily_damaged p),
     Desc "Max Heavily Damaged Buildings: <=" (max_heavily_damaged p)) ].

Fixpoint run_table (t : list (bool * result (row -> bool) * desc))
    (st : state) : result state :=
  match t with
  | [] => Ok st
  | (g, pr, d) :: t' => st' <- apply_filter g pr d st ;; run_table t' st'
  end.

(** The predicates a table activates, in order. *)
Fixpoint active (t : list (bool * result (row -> bool) * desc))
  : result (list (row -> bool)) :=
  match t with
  | [] => Ok []
  | (g, pr, _) :: t' =>
      if g then (f <- pr ;; fs <- active t' ;; Ok (f :: fs)) else active t'
  end.

(** The descriptions a table appends, in order. *)
Fixpoint trace_of (t : list (bool * result (row -> bool) * desc)) : list desc :=
  match t with
  | [] => []
  | (g, _, d) :: t' => if g then d :: trace_of t' else trace_of t'
  end.

Definition active_predicates (p : prefs) : result (list (row -> bool)) :=
  active (constraint_table p).

(** The conjunction of a list of per-row predicates. *)
Definition conj_all (fs : list (row -> bool)) (r : row) : bool :=
  forallb (fun f => f r) fs.

(** Applying predicates one after the other, in the order of the list. *)
Definition apply_seq (fs : list (row -> bool)) (df : list row) : list row :=
  fold_left (fun acc f => filter f acc) fs df.

(* ------------------------------------------------------------------ *)
(** ** Semantic retrieval and fallback: [search_with_constraints] *)

(** One hit of [self.collection.query]: its id, metadata and distance. *)
Record entry : Type := mkEntry {
  doc_id : string;
  meta_mahalle : string;
  meta_ilce : string;
  meta_avg_rent_per_sqm : option Q;
  distance : Q
}.

Inductive metadata : Type :=
| MetaIndex (e : entry)
| MetaRow (r : row).

(** A recommendation dict; [monthly_rent] and [budget_remaining] are only
    present when a budget was given. *)
Record recommendation : Type := mkRec {
  rec_mahalle : string;
  rec_ilce : string;
  similarity : Q;
  monthly_rent : option Q;
  budget_remaining : option Q;
  rec_metadata : metadata
}.

(** External calls made by the pipeline. *)
Inductive call : Type :=
| CallIndex (text : pyval) (k : nat)
| CallFallback (n : nat).

Definition py_in (s : string) (l : list string) : bool :=
  existsb (String.eqb s) l.

(** The post-filter loop over the hits, with its accumulator
    [filtered_results] and its [break]. *)
Fixpoint keep_matches (filtered_mahalles filtered_ilces : list string)
    (n_results : nat) (hits acc : list entry) : list entry :=
  match hits with
  | [] => acc
  | e :: hits' =>
      if py_in (meta_mahalle e) filtered_mahalles
         && py_in (meta_ilce e) filtered_ilces
      then
        let acc' := acc ++ [e] in
        if Nat.leb n_results (List.length acc') then acc'
        else keep_matches filtered_mahalles filtered_ilces n_results hits' acc'
      else keep_matches filtered_mahalles filtered_ilces n_results hits' acc
  end.

(** [rec['monthly_rent']] and [rec['budget_remaining']], added when
    [preferences.get('monthly_budget')] is truthy. *)
Definition rent_fields (p : prefs) (rent_per_sqm : Q)
  : result (option Q * option Q) :=
  if truthy (monthly_budget p) then
    s <- num_operand (py_or (apartment_size_sqm p) (PNum 80)) ;;
    let rent := rent_per_sqm * s in
    b <- num_operand (monthly_budget p) ;;
    Ok (Some rent, Some (b - rent))
  else Ok (None, None).

Fixpoint map_result {A B} (f : A -> result B) (l : list A) : result (list B) :=
  match l with
  | [] => Ok []
  | x :: l' => y <- f x ;; ys <- map_result f l' ;; Ok (y :: ys)
  end.

(** A kept hit becomes a recommendation with similarity [1 - distance];
    the rent comes from [metadata.get('avg_rent_per_sqm', 0)]. *)
Definition entry_to_rec (p : prefs) (e : entry) : result recommendation :=
  fields <- rent_fields p (match meta_avg_rent_per_sqm e with
                           | Some q => q | None => 0 end) ;;
  Ok (mkRec (meta_mahalle e) (meta_ilce e) (1 - distance e)
        (fst fields) (snd fields) (MetaIndex e)).

(** [_dataframe_to_recommendations]: similarity is the constant 0.5. *)
Definition row_to_rec (p : prefs) (r : row) : result recommendation :=
  fields <- rent_fields p (Avg_Rent_Per_SqM r) ;;
  Ok (mkRec (Mahalle r) (Ilce r) (1 # 2) (fst fields) (snd fields)
        (MetaRow r)).

Definition dataframe_to_recommendations (p : prefs) (df : list row)
  : result (list recommendation) :=
  map_result (row_to_rec p) df.

(** [DataFrame.nlargest(n, 'Society_Welfare_Index')] with the default
    [keep='first']: a stable sort by the column, descending, cut at [n]. *)
Fixpoint insert_by_welfare (r : row) (l : list row) : list row :=
  match l with
  | [] => [r]
  | y :: l' =>
      if Qle_bool (Society_Welfare_Index y) (Society_Welfare_Index r)
      then r :: l
      else y :: insert_by_welfare r l'
  end.

Fixpoint sort_by_welfare (l : list row) : list row :=
  match l with
  | [] => []
  | r :: l' => insert_by_welfare r (sort_by_welfare l')
  end.

Definition nlargest (n : nat) (df : list row) : list row :=
  firstn n (sort_by_welfare df).

Definition generic_text : pyval := PStr "good neighborhood".

(** [search_with_constraints(preferences, n_results)] against the catalogue
    [df] and the vector index [query]; the [try] covers the query, the
    post-filter and the parsing of the kept hits. *)
Definition search_with_constraints (df : list row)
    (query : pyval -> nat -> result (list entry)) (p : prefs)
    (n_results : nat) : list call * result (list recommendation) :=
  match filter_by_constraints p df with
  | Raise e => ([], Raise e)
  | Ok (filtered_df, _) =>
      if Nat.eqb (List.length filtered_df) 0 then ([], Ok [])
      else
        let filtered_mahalles := map Mahalle filtered_df in
        let filtered_ilces := map Ilce filtered_df in
        let text := py_or (preferences_text p) generic_text in
        let k := Nat.min 50 (List.length df) in
        match (results <- query text k ;;
               map_result (entry_to_rec p)
                 (keep_matches filtered_mahalles filtered_ilces n_results
                    results []))
        with
        | Ok recs => ([CallIndex text k], Ok recs)
        | Raise _ =>
            ([CallIndex text k; CallFallback n_results],
             dataframe_to_recommendations p (nlargest n_results filtered_df))
        end
  end.

(* ------------------------------------------------------------------ *)
(** ** A small catalogue (the scenario of the specification) *)

Definition mk_sample (m i : string) (rent parks welfare : Q) : row :=
  mkRow m i rent parks 1 1 1 (1 # 2) welfare 1000 2 (Some 0) (Some 0) (Some 0).

Definition row_A : row := mk_sample "A" "D1" 300 2 (9 # 10).
Definition row_B : row := mk_sample "B" "D2" 600 0 (1 # 2).
Definition row_C : row := mk_sample "C" "D1" 400 3 (7 # 10).
Definition catalog3 : list row := [row_A; row_B; row_C].

Definition scenario_prefs : prefs :=
  {| monthly_budget := PNum 32000; apartment_size_sqm := PNum 80;
     min_parks := PNum 1; min_schools := PNone; min_restaurants := PNone;
     min_cafes := PNone; min_green_index := PNone; max_population := PNone;
     min_total_stations := PNone; max_casualties := PNone;
     max_severely_damaged := PNone; max_heavily_damaged := PNone;
     earthquake_safe := PNone; preferences_text := PNone |}.

Definition failing_index (t : pyval) (k : nat) : result (list entry) :=
  Raise TypeError.

Example scenario_candidates :
  match filter_by_constraints scenario_prefs catalog3 with
  | Ok (c, tr) => map Mahalle c = ["A"; "C"]%string /\ List.length tr = 2%nat
  | Raise _ => False
  end.
Proof. vm_compute. split; reflexivity. Qed.

Example scenario_fallback :
  match snd (search_with_constraints catalog3 failing_index scenario_prefs 3)
  with
  | Ok recs => map rec_mahalle recs = ["A"; "C"]%string
  | Raise _ => False
  end.
Proof. vm_compute. reflexivity. Qed.

(* ------------------------------------------------------------------ *)
(** ** The filter chain *)

Lemma bind_ext {A B} (m : result A) (k k' : A -> result B) :
  (forall a, k a = k' a) -> bind m k = bind m k'.
Proof. intros H. destruct m; simpl; auto. Qed.

Lemma bind_ret {A} (m : result A) : bind m (fun a => Ok a) = m.
Proof. destruct m; reflexivity. Qed.

Lemma apply_filter_and (g1 g2 : bool) pr d st :
  (if g1 then apply_filter g2 pr d st else Ok st) =
  apply_filter (g1 && g2) pr d st.
Proof. destruct g1; reflexivity. Qed.

Lemma filter_by_constraints_table (p : prefs) (df : list row) :
  filter_by_constraints p df = run_table (constraint_table p) (df, []).
Proof.
  unfold filter_by_constraints, constraint_table. cbn [run_table].
  repeat (apply bind_ext; intro).
  rewrite apply_filter_and.
  repeat (apply bind_ext; intro).
  symmetry. apply bind_ret.
Qed.

Lemma filter_filter {A} (f g : A -> bool) (l : list A) :
  filter g (filter f l) = filter (fun x => f x && g x) l.
Proof.
  induction l as [|x l IH]; simpl; auto.
  destruct (f x); simpl; rewrite ?IH; auto.
Qed.

Lemma conj_all_nil (df : list row) : filter (conj_all []) df = df.
Proof.
  induction df as [|x df IH]; simpl; auto. now rewrite IH.
Qed.

Lemma run_table_spec t df tr :
  run_table t (df, tr) =
  match active t with
  | Ok fs => Ok (filter (conj_all fs) df, tr ++ trace_of t)
  | Raise e => Raise e
  end.
Proof.
  revert df tr.
  induction t as [|[[g pr] d] t IH]; intros df tr; simpl.
  - now rewrite conj_all_nil, app_nil_r.
  - destruct g; simpl.
    + destruct pr as [f|e]; simpl; auto.
      rewrite IH. destruct (active t) as [fs|e]; simpl; auto.
      rewrite filter_filter, <- app_assoc. reflexivity.
    + apply IH.
Qed.

Lemma filter_by_constraints_spec p df :
  filter_by_constraints p df =
  match active_predicates p with
  | Ok fs => Ok (filter (conj_all fs) df, trace_of (constraint_table p))
  | Raise e => Raise e
  end.
Proof.
  rewrite filter_by_constraints_table, run_table_spec. reflexivity.
Qed.

Lemma apply_seq_conj (fs : list (row -> bool)) (df : list row) :
  apply_seq fs df = filter (conj_all fs) df.
Proof.
  revert df. induction fs as [|f fs IH]; intros df; simpl.
  - now rewrite conj_all_nil.
  - unfold apply_seq in *. simpl. rewrite IH, filter_filter. reflexivity.
Qed.

Lemma conj_all_perm (fs fs' : list (row -> bool)) :
  Permutation fs fs' -> forall r, conj_all fs r = conj_all fs' r.
Proof.
  unfold conj_all.
  induction 1 as [| f fs fs' _ IH | f g fs | fs fs' fs'' _ IH1 _ IH2];
    intros r; simpl.
  - reflexivity.
  - now rewrite IH.
  - destruct (f r), (g r); reflexivity.
  - now rewrite IH1, IH2.
Qed.

Lemma filter_ext_fun {A} (f g : A -> bool) (l : list A) :
  (forall x, f x = g x) -> filter f l = filter g l.
Proof.
  intros H. induction l as [|x l IH]; simpl; auto. now rewrite H, IH.
Qed.

(* ------------------------------------------------------------------ *)
(** ** Claims about the Constraint Filter *)

(** C6: with every preference field null the filter keeps the whole
    catalogue and records no constraint. *)
Theorem all_null_preferences_keep_catalog (df : list row) :
  filter_by_constraints empty_preferences df = Ok (df, []).
Proof. reflexivity. Qed.

(** C7: the candidate set is the set of catalogue rows satisfying the
    conjunction of the active predicates, so applying those predicates in
    any order yields the same candidate set. *)
Theorem candidate_set_is_conjunction (p : prefs) (df c : list row)
    (tr : list desc) :
  filter_by_constraints p df = Ok (c, tr) ->
  exists fs, active_predicates p = Ok fs /\
    c = filter (conj_all fs) df /\
    (forall fs', Permutation fs fs' -> apply_seq fs' df = c).
Proof.
  rewrite filter_by_constraints_spec.
  destruct (active_predicates p) as [fs|e]; intros H; inversion H; subst.
  exists fs. split; [reflexivity|split; [reflexivity|]].
  intros fs' Hp. rewrite apply_seq_conj.
  apply filter_ext_fun. intros r. symmetry. now apply conj_all_perm.
Qed.

Definition scenario_trace : list desc :=
  [Desc "Budget: <=" (PNum 32000); Desc "Parks: >=" (PNum 1)].

Lemma candidate_set_is_conjunction_witness :
  filter_by_constraints scenario_prefs catalog3 =
    Ok ([row_A; row_C], scenario_trace) /\
  exists fs, active_predicates scenario_prefs = Ok fs /\
    [row_A; row_C] = filter (conj_all fs) catalog3 /\
    (forall fs', Permutation fs fs' -> apply_seq fs' catalog3 = [row_A; row_C]).
Proof.
  split.
  - vm_compute. reflexivity.
  - apply (candidate_set_is_conjunction scenario_prefs catalog3
             [row_A; row_C] scenario_trace).
    vm_compute. reflexivity.
Defined.

(** The trace as the corrected C3 describes it: budget, amenity, index,
    population and station thresholds are recorded when truthy (non-null
    and non-zero), the three earthquake maxima when non-null;
    [earthquake_safe], the apartment size and the free text add nothing. *)
Definition expected_trace (p : prefs) : list desc :=
  let when_truthy (v : pyval) (lbl : string) := if truthy v then [Desc lbl v] else [] in
  let when_set (v : pyval) (lbl : string) := if is_not_none v then [Desc lbl v] else [] in
  when_truthy (monthly_budget p) "Budget: <="%string ++
  when_truthy (min_parks p) "Parks: >="%string ++
  when_truthy (min_schools p) "Schools: >="%string ++
  when_truthy (min_restaurants p) "Restaurants: >="%string ++
  when_truthy (min_cafes p) "Cafes: >="%string ++
  when_truthy (min_green_index p) "Green Index: >="%string ++
  when_truthy (max_population p) "Population: <="%string ++
  when_truthy (min_total_stations p) "Total Stations (bus+train+transit): >="%string ++
  when_set (max_casualties p) "Max Casualties (earthquake sim): <="%string ++
  when_set (max_severely_damaged p) "Max Severely Damaged Buildings: <="%string ++
  when_set (max_heavily_damaged p) "Max Heavily Damaged Buildings: <="%string.

Lemma if_app {A} (b : bool) (x : A) (l : list A) :
  (if b then [x] else []) ++ l = if b then x :: l else l.
Proof. destruct b; reflexivity. Qed.

(** The predicates the corrected C3 describes, one per field whose guard
    holds, in source order: the same guards as [expected_trace], each with
    the comparison of its field. *)
Definition expected_predicates (p : prefs) : list (result (row -> bool)) :=
  let when_truthy (v : pyval) (pr : result (row -> bool)) :=
    if truthy v then [pr] else [] in
  let when_set (v : pyval) (pr : result (row -> bool)) :=
    if is_not_none v then [pr] else [] in
  when_truthy (monthly_budget p)
    (budget_pred (py_or (apartment_size_sqm p) (PNum 80)) (monthly_budget p)) ++
  when_truthy (min_parks p) (ge_pred park (min_parks p)) ++
  when_truthy (min_schools p) (ge_pred school (min_schools p)) ++
  when_truthy (min_restaurants p) (ge_pred restaurant (min_restaurants p)) ++
  when_truthy (min_cafes p) (ge_pred cafe (min_cafes p)) ++
  when_truthy (min_green_index p) (ge_pred Green_Index (min_green_index p)) ++
  when_truthy (max_population p) (le_pred Nufus (max_population p)) ++
  when_truthy (min_total_stations p)
    (ge_pred total_stations (min_total_stations p)) ++
  when_set (max_casualties p)
    (le_nan_pred can_kaybi_sayisi (max_casualties p)) ++
  when_set (max_severely_damaged p)
    (le_nan_pred cok_agir_hasarli_bina_sayisi (max_severely_damaged p)) ++
  when_set (max_heavily_damaged p)
    (le_nan_pred agir_hasarli_bina_sayisi (max_heavily_damaged p)).

(** The predicates of a table whose guards hold, in order. *)
Fixpoint guarded_preds (t : list (bool * result (row -> bool) * desc))
  : list (result (row -> bool)) :=
  match t with
  | [] => []
  | (g, pr, _) :: t' => if g then pr :: guarded_preds t' else guarded_preds t'
  end.

Lemma active_Forall2 t fs :
  active t = Ok fs -> Forall2 (fun pr f => pr = Ok f) (guarded_preds t) fs.
Proof.
  revert fs. induction t as [|[[g pr] d] t IH]; intros fs H; simpl in *.
  - injection H as <-. constructor.
  - destruct g; [|auto].
    destruct pr as [f|]; simpl in H; [|discriminate].
    destruct (active t) as [fs'|]; simpl in H; [|discriminate].
    injection H as <-. constructor; auto.
Qed.

Lemma guarded_preds_cons g pr d t :
  guarded_preds ((g, pr, d) :: t) = (if g then [pr] else []) ++ guarded_preds t.
Proof. destruct g; reflexivity. Qed.

Lemma expected_predicates_table p :
  expected_predicates p = guarded_preds (constraint_table p).
Proof.
  unfold expected_predicates, constraint_table. cbv zeta.
  rewrite !guarded_preds_cons. cbn [guarded_preds]. rewrite app_nil_r.
  destruct (is_not_none (max_casualties p)), (truthy (earthquake_safe p));
    reflexivity.
Qed.

(** C3 (corrected): whenever the filter returns, it has applied one
    predicate and appended one description per field whose guard holds, in
    source order, whatever the predicates removed: truthy budget, amenity,
    green-index, population and station thresholds (a zero threshold is
    skipped), and non-null earthquake maxima (zero included).  The
    candidates are exactly the rows satisfying all these predicates;
    [earthquake_safe], the apartment size and the free text contribute no
    predicate and no description of their own. *)
Theorem filter_trace_fields (p : prefs) (df c : list row) (tr : list desc) :
  filter_by_constraints p df = Ok (c, tr) ->
  tr = expected_trace p /\
  exists fs, Forall2 (fun pr f => pr = Ok f) (expected_predicates p) fs /\
    c = filter (conj_all fs) df.
Proof.
  rewrite filter_by_constraints_spec.
  destruct (active_predicates p) as [fs|] eqn:Ha; intros H; [|discriminate].
  injection H as <- <-. split.
  - unfold expected_trace. cbv zeta. rewrite !if_app.
    destruct (is_not_none (max_casualties p)), (truthy (earthquake_safe p));
      reflexivity.
  - exists fs. split; [|reflexivity].
    rewrite expected_predicates_table. now apply active_Forall2.
Qed.

Lemma filter_trace_fields_witness :
  filter_by_constraints scenario_prefs catalog3 =
    Ok ([row_A; row_C], scenario_trace) /\
  (scenario_trace = expected_trace scenario_prefs /\
   exists fs, Forall2 (fun pr f => pr = Ok f)
                (expected_predicates scenario_prefs) fs /\
     [row_A; row_C] = filter (conj_all fs) catalog3).
Proof.
  split.
  - vm_compute. reflexivity.
  - apply (filter_trace_fields scenario_prefs catalog3 [row_A; row_C]).
    vm_compute. reflexivity.
Defined.

Definition zero_threshold_prefs : prefs :=
  {| monthly_budget := PNone; apartment_size_sqm := PNone;
     min_parks := PNum 0; min_schools := PNone; min_restaurants := PNone;
     min_cafes := PNone; min_green_index := PNone; max_population := PNum 0;
     min_total_stations := PNone; max_casualties := PNone;
     max_severely_damaged := PNone; max_heavily_damaged := PNone;
     earthquake_safe := PNone; preferences_text := PNone |}.

(** C3 counterexample: [min_parks = 0] and [max_population = 0] are
    non-null, yet neither is applied nor recorded (every row keeps its
    population of 1000 > 0). *)
Lemma zero_thresholds_not_recorded :
  is_not_none (min_parks zero_threshold_prefs) = true /\
  is_not_none (max_population zero_threshold_prefs) = true /\
  filter_by_constraints zero_threshold_prefs catalog3 = Ok (catalog3, []) /\
  ~ (Nufus row_A <= 0).
Proof.
  split; [reflexivity|split; [reflexivity|split]].
  - vm_compute. reflexivity.
  - intro H. vm_compute in H. now apply H.
Qed.

(* ------------------------------------------------------------------ *)
(** ** Malformed thresholds *)

Definition numlike (v : pyval) : bool :=
  match v with PStr _ => false | _ => true end.

(** The fields the filter compares or multiplies with a numeric column. *)
Definition threshold_fields (p : prefs) : list pyval :=
  [monthly_budget p; min_parks p; min_schools p; min_restaurants p;
   min_cafes p; min_green_index p; max_population p; min_total_stations p;
   max_casualties p; max_severely_damaged p; max_heavily_damaged p].

Definition well_typed (p : prefs) : bool :=
  numlike (apartment_size_sqm p) && forallb numlike (threshold_fields p).

Lemma active_ok (t : list (bool * result (row -> bool) * desc)) :
  (forall g pr d, In (g, pr, d) t -> g = true -> exists f, pr = Ok f) ->
  exists fs, active t = Ok fs.
Proof.
  induction t as [|[[g pr] d] t IH]; intros H; simpl.
  - eauto.
  - destruct IH as [fs Hfs].
    { intros g' pr' d' Hin. apply (H g' pr' d'). now right. }
    rewrite Hfs. destruct g.
    + destruct (H true pr d) as [f ->]; [now left|reflexivity|].
      simpl. eauto.
    + eauto.
Qed.

Lemma active_raise (t : list (bool * result (row -> bool) * desc)) g pr d e :
  In (g, pr, d) t -> g = true -> pr = Raise e ->
  exists e', active t = Raise e'.
Proof.
  induction t as [|[[g0 pr0] d0] t IH]; intros Hin Hg Hpr; simpl in *.
  - contradiction.
  - destruct Hin as [Heq|Hin].
    + inversion Heq; subst. simpl. exists e. reflexivity.
    + destruct (IH Hin Hg Hpr) as [e' He'].
      destruct g0; [|exists e'; exact He'].
      destruct pr0 as [f|e0]; simpl.
      * rewrite He'. simpl. exists e'. reflexivity.
      * exists e0. reflexivity.
Qed.

Lemma numlike_threshold v : numlike v = true -> exists t, threshold v = Ok t.
Proof. destruct v; simpl; try discriminate; eauto. Qed.

Lemma numlike_operand v :
  numlike v = true -> truthy v = true -> exists q, num_operand v = Ok q.
Proof. destruct v; simpl; try discriminate; eauto. Qed.

Lemma active_ok_inv (t : list (bool * result (row -> bool) * desc)) fs :
  active t = Ok fs ->
  Forall (fun e => fst (fst e) = true -> exists f, snd (fst e) = Ok f) t.
Proof.
  revert fs. induction t as [|[[g pr] d] t IH]; intros fs H; simpl in *.
  - constructor.
  - destruct g.
    + destruct pr as [f|e]; simpl in H; [|discriminate].
      destruct (active t) as [fs'|e] eqn:Ht; simpl in H; [|discriminate].
      constructor; [simpl; eauto|eapply IH; eauto].
    + constructor; [simpl; discriminate|eapply IH; eauto].
Qed.

Lemma budget_pred_ok size b :
  numlike size = true -> numlike b = true ->
  exists f, budget_pred (py_or size (PNum 80)) b = Ok f.
Proof.
  intros Hs Hb. unfold budget_pred, py_or.
  destruct (truthy size) eqn:Ht.
  - destruct (numlike_operand size Hs Ht) as [q ->]. simpl.
    destruct (numlike_threshold b Hb) as [t ->]. simpl. eauto.
  - simpl. destruct (numlike_threshold b Hb) as [t ->]. simpl. eauto.
Qed.

Lemma ge_pred_ok col v : numlike v = true -> exists f, ge_pred col v = Ok f.
Proof.
  intros H. unfold ge_pred. destruct (numlike_threshold v H) as [t ->].
  simpl. eauto.
Qed.

Lemma le_pred_ok col v : numlike v = true -> exists f, le_pred col v = Ok f.
Proof.
  intros H. unfold le_pred. destruct (numlike_threshold v H) as [t ->].
  simpl. eauto.
Qed.

Lemma le_nan_pred_ok col v :
  numlike v = true -> exists f, le_nan_pred col v = Ok f.
Proof.
  intros H. unfold le_nan_pred. destruct (numlike_threshold v H) as [t ->].
  simpl. eauto.
Qed.

Lemma truthy_nonempty_str s : s <> EmptyString -> truthy (PStr s) = true.
Proof.
  intros H. simpl. destruct (String.eqb s EmptyString) eqn:E; [|reflexivity].
  apply String.eqb_eq in E. contradiction.
Qed.

(** On a preference record whose thresholds and apartment size hold only
    null, numeric or boolean values, the filter returns. *)
Lemma filter_total_on_well_typed (p : prefs) (df : list row) :
  well_typed p = true -> exists c tr, filter_by_constraints p df = Ok (c, tr).
Proof.
  intros H. rewrite filter_by_constraints_spec.
  enough (exists fs, active_predicates p = Ok fs) as [fs ->] by eauto.
  unfold well_typed, threshold_fields in H. simpl in H.
  repeat match goal with
         | H : _ && _ = true |- _ => apply andb_prop in H; destruct H
         end.
  apply active_ok. intros g pr d Hin _.
  unfold constraint_table in Hin. cbv zeta in Hin. simpl in Hin.
  repeat destruct Hin as [Hin|Hin]; try contradiction;
    injection Hin as <- <- <-;
    eauto using budget_pred_ok, ge_pred_ok, le_pred_ok, le_nan_pred_ok.
Qed.

Definition well_typed_prefs : prefs :=
  {| monthly_budget := PNum 32000; apartment_size_sqm := PNone;
     min_parks := PBool true; min_schools := PNum 0; min_restaurants := PNone;
     min_cafes := PNone; min_green_index := PNum (1 # 2);
     max_population := PNum 5000; min_total_stations := PNone;
     max_casualties := PNum 0; max_severely_damaged := PNone;
     max_heavily_damaged := PNone; earthquake_safe := PBool true;
     preferences_text := PStr "quiet and green" |}.

(** A non-empty string in a threshold field makes the filter raise. *)
Lemma string_threshold_raises (p : prefs) (df : list row) (s : string) :
  s <> EmptyString -> In (PStr s) (threshold_fields p) ->
  filter_by_constraints p df = Raise TypeError.
Proof.
  intros Hs Hin. rewrite filter_by_constraints_spec.
  destruct (active_predicates p) as [fs|e] eqn:Hfs; [exfalso|now destruct e].
  apply active_ok_inv in Hfs. unfold constraint_table in Hfs.
  cbv zeta in Hfs.
  repeat match goal with
         | H : Forall _ (_ :: _) |- _ => apply Forall_cons_iff in H; destruct H
         end.
  cbn [fst snd] in *.
  unfold threshold_fields in Hin. simpl in Hin.
  repeat destruct Hin as [Hin|Hin]; try contradiction;
    rewrite Hin in *.
  all: pose proof (truthy_nonempty_str s Hs) as Ht;
    rewrite ?Ht in *; cbn [is_not_none] in *; rewrite ?orb_true_r in *;
    cbn [andb] in *.
  all: match goal with
    | H : true = true -> exists f, ?pr = Ok f |- _ =>
        destruct (H eq_refl) as [f Hf]; revert Hf;
        unfold budget_pred, ge_pred, le_pred, le_nan_pred; simpl;
        try destruct (num_operand (py_or (apartment_size_sqm p) (PNum 80)));
        simpl; discriminate
    end.
Qed.

(** C5 (corrected): the filter never raises on a preference record whose
    thresholds and apartment size hold only null, numeric or boolean
    values; a malformed threshold is not nulled: a non-empty string in any
    threshold field makes the filter raise a TypeError. *)
Theorem malformed_threshold_behaviour (p : prefs) (df : list row) :
  (well_typed p = true ->
     exists c tr, filter_by_constraints p df = Ok (c, tr)) /\
  (forall s, s <> EmptyString -> In (PStr s) (threshold_fields p) ->
     filter_by_constraints p df = Raise TypeError).
Proof.
  split.
  - apply filter_total_on_well_typed.
  - intros s. apply string_threshold_raises.
Qed.

Definition string_parks_prefs : prefs :=
  {| monthly_budget := PNone; apartment_size_sqm := PNone;
     min_parks := PStr "two"; min_schools := PNone; min_restaurants := PNone;
     min_cafes := PNone; min_green_index := PNone; max_population := PNone;
     min_total_stations := PNone; max_casualties := PNone;
     max_severely_damaged := PNone; max_heavily_damaged := PNone;
     earthquake_safe := PNone; preferences_text := PNone |}.

(** C5 counterexample: [min_parks = "two"] is not treated as null: the
    comparison [df['park'] >= "two"] raises. *)
Lemma string_threshold_not_nulled :
  filter_by_constraints string_parks_prefs catalog3 = Raise TypeError.
Proof. reflexivity. Qed.

Lemma malformed_threshold_behaviour_witness :
  well_typed well_typed_prefs = true /\
  (exists c tr, filter_by_constraints well_typed_prefs catalog3 = Ok (c, tr)) /\
  ("two"%string <> EmptyString /\
   In (PStr "two") (threshold_fields string_parks_prefs) /\
   filter_by_constraints string_parks_prefs catalog3 = Raise TypeError).
Proof.
  assert (Hw : well_typed well_typed_prefs = true) by reflexivity.
  assert (Hs : "two"%string <> EmptyString) by discriminate.
  assert (Hin : In (PStr "two") (threshold_fields string_parks_prefs))
    by (simpl; auto).
  split; [exact Hw|split].
  - exact (proj1 (malformed_threshold_behaviour well_typed_prefs catalog3) Hw).
  - split; [exact Hs|split; [exact Hin|]].
    exact (proj2 (malformed_threshold_behaviour string_parks_prefs catalog3)
             "two"%string Hs Hin).
Defined.

(* ------------------------------------------------------------------ *)
(** ** The pipeline *)

Lemma map_result_Forall2 {A B} (f : A -> result B) l ys :
  map_result f l = Ok ys -> Forall2 (fun x y => f x = Ok y) l ys.
Proof.
  revert ys. induction l as [|x l IH]; intros ys H; simpl in H.
  - injection H as <-. constructor.
  - destruct (f x) as [y|e] eqn:Hx; simpl in H; [|discriminate].
    destruct (map_result f l) as [ys'|e] eqn:Hl; simpl in H; [|discriminate].
    injection H as <-. constructor; auto.
Qed.

(** The query text and the oversample size [search_with_constraints] uses. *)
Definition query_text (p : prefs) : pyval := py_or (preferences_text p) generic_text.
Definition oversample (df : list row) : nat := Nat.min 50 (List.length df).

Lemma search_fallback_path df query p n c tr e :
  filter_by_constraints p df = Ok (c, tr) -> c <> [] ->
  query (query_text p) (oversample df) = Raise e ->
  search_with_constraints df query p n =
    ([CallIndex (query_text p) (oversample df); CallFallback n],
     dataframe_to_recommendations p (nlargest n c)).
Proof.
  intros Hf Hc Hq. unfold search_with_constraints. rewrite Hf.
  destruct c as [|r c]; [contradiction|]. cbn [List.length Nat.eqb].
  unfold query_text, oversample in Hq. rewrite Hq. reflexivity.
Qed.

Lemma search_fallback_inv df query p n calls res :
  search_with_constraints df query p n = (calls, res) ->
  In (CallFallback n) calls ->
  exists c tr, filter_by_constraints p df = Ok (c, tr) /\
    res = dataframe_to_recommendations p (nlargest n c).
Proof.
  unfold search_with_constraints.
  destruct (filter_by_constraints p df) as [[c tr]|e].
  - destruct (Nat.eqb (List.length c) 0).
    + intros H; injection H as <- <-. contradiction.
    + destruct (bind _ _) as [recs|e].
      * intros H; injection H as <- <-. intros [H|H]; [discriminate|contradiction].
      * intros H; injection H as <- <-. eauto.
  - intros H; injection H as <- <-. contradiction.
Qed.

(** C9: when no catalogue row passes the filter, the pipeline returns an
    empty list, raises nothing and calls neither the vector index nor the
    fallback ranker. *)
Theorem empty_candidates_no_calls (df : list row)
    (query : pyval -> nat -> result (list entry)) (p : prefs) (n : nat)
    (tr : list desc) :
  filter_by_constraints p df = Ok ([], tr) ->
  search_with_constraints df query p n = ([], Ok []).
Proof. intros H. unfold search_with_constraints. now rewrite H. Qed.

Definition tiny_budget_prefs : prefs :=
  {| monthly_budget := PNum 1; apartment_size_sqm := PNone;
     min_parks := PNone; min_schools := PNone; min_restaurants := PNone;
     min_cafes := PNone; min_green_index := PNone; max_population := PNone;
     min_total_stations := PNone; max_casualties := PNone;
     max_severely_damaged := PNone; max_heavily_damaged := PNone;
     earthquake_safe := PNone; preferences_text := PNone |}.

Lemma empty_candidates_no_calls_witness :
  filter_by_constraints tiny_budget_prefs catalog3 =
    Ok ([], [Desc "Budget: <=" (PNum 1)]) /\
  search_with_constraints catalog3 failing_index tiny_budget_prefs 3 =
    ([], Ok []).
Proof.
  split.
  - vm_compute. reflexivity.
  - apply (empty_candidates_no_calls catalog3 failing_index tiny_budget_prefs
             3 [Desc "Budget: <=" (PNum 1)]).
    vm_compute. reflexivity.
Defined.

(** C2 (corrected): with a non-empty candidate set, a raised retrieval
    error sends the pipeline to the fallback ranker; when the retriever
    answers but keeps no hit, the pipeline returns the empty list and does
    not call the fallback ranker. *)
Theorem retrieval_failure_falls_back (df : list row)
    (query : pyval -> nat -> result (list entry)) (p : prefs) (n : nat)
    (c : list row) (tr : list desc) :
  filter_by_constraints p df = Ok (c, tr) -> c <> [] ->
  (forall e, query (query_text p) (oversample df) = Raise e ->
     search_with_constraints df query p n =
       ([CallIndex (query_text p) (oversample df); CallFallback n],
        dataframe_to_recommendations p (nlargest n c))) /\
  (forall hits, query (query_text p) (oversample df) = Ok hits ->
     keep_matches (map Mahalle c) (map Ilce c) n hits [] = [] ->
     search_with_constraints df query p n =
       ([CallIndex (query_text p) (oversample df)], Ok [])).
Proof.
  intros Hf Hc. split.
  - intros e Hq. eapply search_fallback_path; eauto.
  - intros hits Hq Hk. unfold search_with_constraints. rewrite Hf.
    destruct c as [|r c]; [contradiction|]. cbn [List.length Nat.eqb].
    unfold query_text, oversample in Hq. rewrite Hq. cbn [bind].
    rewrite Hk. reflexivity.
Qed.

Lemma retrieval_failure_falls_back_witness :
  filter_by_constraints scenario_prefs catalog3 =
    Ok ([row_A; row_C], scenario_trace) /\
  [row_A; row_C] <> [] /\
  search_with_constraints catalog3 failing_index scenario_prefs 3 =
    ([CallIndex (query_text scenario_prefs) (oversample catalog3);
      CallFallback 3],
     dataframe_to_recommendations scenario_prefs
       (nlargest 3 [row_A; row_C])).
Proof.
  assert (Hf : filter_by_constraints scenario_prefs catalog3 =
                 Ok ([row_A; row_C], scenario_trace))
    by (vm_compute; reflexivity).
  split; [exact Hf|split; [discriminate|]].
  apply (proj1 (retrieval_failure_falls_back catalog3 failing_index
                  scenario_prefs 3 [row_A; row_C] scenario_trace Hf
                  ltac:(discriminate)) TypeError).
  reflexivity.
Defined.

(** A vector index whose only hit is row B of [catalog3], which the budget
    excludes. *)
Definition entry_B : entry := mkEntry "D2_B" "B" "D2" (Some 600) (1 # 10).
Definition index_only_B (t : pyval) (k : nat) : result (list entry) :=
  Ok [entry_B].

(** C2 counterexample: the candidate set {A, C} is non-empty and the
    retriever keeps nothing, yet the fallback ranker is not called and the
    result list is empty. *)
Lemma zero_kept_returns_empty :
  filter_by_constraints scenario_prefs catalog3 =
    Ok ([row_A; row_C], scenario_trace) /\
  search_with_constraints catalog3 index_only_B scenario_prefs 3 =
    ([CallIndex (query_text scenario_prefs) (oversample catalog3)], Ok []).
Proof. split; vm_compute; reflexivity. Qed.

(** C10: every recommendation built by the fallback path carries the
    similarity 0.5, whatever the row, so every fallback score is in [0,1]. *)
Theorem fallback_similarity_constant (p : prefs) (rows : list row)
    (recs : list recommendation) :
  dataframe_to_recommendations p rows = Ok recs ->
  map similarity recs = repeat (1 # 2) (List.length rows) /\
  Forall (fun rc => 0 <= similarity rc <= 1) recs.
Proof.
  intros H. apply map_result_Forall2 in H.
  induction H as [|r rc rows recs Hr _ [IH1 IH2]]; simpl.
  - split; [reflexivity|constructor].
  - unfold row_to_rec in Hr.
    destruct (rent_fields p (Avg_Rent_Per_SqM r)); simpl in Hr;
      [|discriminate].
    injection Hr as <-. simpl. rewrite IH1. split; [reflexivity|].
    constructor; [simpl; lra|exact IH2].
Qed.

Definition fallback_recs : list recommendation :=
  match dataframe_to_recommendations scenario_prefs catalog3 with
  | Ok recs => recs
  | Raise _ => []
  end.

Lemma fallback_similarity_constant_witness :
  dataframe_to_recommendations scenario_prefs catalog3 = Ok fallback_recs /\
  map similarity fallback_recs = repeat (1 # 2) (List.length catalog3) /\
  Forall (fun rc => 0 <= similarity rc <= 1) fallback_recs.
Proof.
  assert (H : dataframe_to_recommendations scenario_prefs catalog3 =
                Ok fallback_recs) by (vm_compute; reflexivity).
  split; [exact H|].
  apply (fallback_similarity_constant scenario_prefs catalog3 fallback_recs H).
Defined.

(* ------------------------------------------------------------------ *)
(** ** The fallback ranker *)

(** [a] may precede [b] in a list ranked by welfare, descending. *)
Definition welfare_desc (a b : row) : Prop :=
  Society_Welfare_Index b <= Society_Welfare_Index a.

(** The rows whose welfare index equals [q]. *)
Definition same_welfare (q : Q) (r : row) : bool :=
  Qeq_bool (Society_Welfare_Index r) q.

Lemma Qle_bool_false a b : Qle_bool a b = false -> b < a.
Proof.
  intros H. apply Qnot_le_lt. intros H'. apply Qle_bool_iff in H'. congruence.
Qed.

Lemma insert_by_welfare_perm r l :
  Permutation (insert_by_welfare r l) (r :: l).
Proof.
  induction l as [|y l IH]; simpl; auto.
  destruct (Qle_bool _ _); auto.
  eapply perm_trans; [apply perm_skip, IH|apply perm_swap].
Qed.

Lemma sort_by_welfare_perm l : Permutation (sort_by_welfare l) l.
Proof.
  induction l as [|r l IH]; simpl; auto.
  eapply perm_trans; [apply insert_by_welfare_perm|apply perm_skip, IH].
Qed.

Lemma insert_by_welfare_hd y r l :
  HdRel welfare_desc y l -> welfare_desc y r ->
  HdRel welfare_desc y (insert_by_welfare r l).
Proof.
  intros Hl Hr. destruct l as [|z l]; simpl.
  - constructor. exact Hr.
  - destruct (Qle_bool _ _); constructor; [exact Hr|].
    inversion Hl; assumption.
Qed.

Lemma insert_by_welfare_sorted r l :
  Sorted welfare_desc l -> Sorted welfare_desc (insert_by_welfare r l).
Proof.
  induction l as [|y l IH]; intros H; simpl.
  - repeat constructor.
  - destruct (Qle_bool (Society_Welfare_Index y) (Society_Welfare_Index r))
      eqn:E.
    + constructor; [exact H|]. constructor.
      apply Qle_bool_iff in E. exact E.
    + apply Qle_bool_false in E. inversion H; subst.
      constructor; [now apply IH|].
      apply insert_by_welfare_hd; [assumption|].
      unfold welfare_desc. lra.
Qed.

Lemma sort_by_welfare_sorted l : Sorted welfare_desc (sort_by_welfare l).
Proof.
  induction l as [|r l IH]; simpl; [constructor|].
  now apply insert_by_welfare_sorted.
Qed.

Lemma insert_by_welfare_stable q r l :
  filter (same_welfare q) (insert_by_welfare r l) =
  filter (same_welfare q) (r :: l).
Proof.
  induction l as [|y l IH]; simpl; auto.
  destruct (Qle_bool (Society_Welfare_Index y) (Society_Welfare_Index r))
    eqn:E; [reflexivity|].
  apply Qle_bool_false in E. simpl. rewrite IH. simpl.
  destruct (same_welfare q r) eqn:Hr, (same_welfare q y) eqn:Hy;
    try reflexivity.
  unfold same_welfare in Hr, Hy. apply Qeq_bool_iff in Hr, Hy. lra.
Qed.

Lemma sort_by_welfare_stable q l :
  filter (same_welfare q) (sort_by_welfare l) = filter (same_welfare q) l.
Proof.
  induction l as [|r l IH]; simpl; auto.
  rewrite insert_by_welfare_stable. simpl.
  destruct (same_welfare q r); now rewrite IH.
Qed.

Lemma welfare_desc_trans : Transitive welfare_desc.
Proof. intros a b c Hab Hbc. unfold welfare_desc in *. lra. Qed.

Lemma filter_same_welfare_nil q l :
  (forall x, In x l -> Society_Welfare_Index x < q) ->
  filter (same_welfare q) l = [].
Proof.
  induction l as [|x l IH]; intros H; simpl; auto.
  destruct (same_welfare q x) eqn:Hx.
  - unfold same_welfare in Hx. apply Qeq_bool_iff in Hx.
    specialize (H x (or_introl eq_refl)). lra.
  - apply IH. intros y Hy. apply H. now right.
Qed.

Lemma strongly_sorted_head a l :
  StronglySorted welfare_desc (a :: l) ->
  forall x, In x l -> Society_Welfare_Index x <= Society_Welfare_Index a.
Proof.
  intros H x Hx. apply StronglySorted_inv in H as [_ H].
  rewrite Forall_forall in H. exact (H x Hx).
Qed.

Lemma class_top_nonempty b l :
  filter (same_welfare (Society_Welfare_Index b)) (b :: l) <> [].
Proof. simpl. unfold same_welfare. rewrite Qeq_bool_refl. discriminate. Qed.

(** Two lists ranked by welfare (descending) whose rows of each welfare
    value come in the same order are equal. *)
Lemma stable_sorted_unique L1 L2 :
  StronglySorted welfare_desc L1 -> StronglySorted welfare_desc L2 ->
  (forall q, filter (same_welfare q) L1 = filter (same_welfare q) L2) ->
  L1 = L2.
Proof.
  revert L2. induction L1 as [|a L1 IH]; intros L2 H1 H2 Hf.
  - destruct L2 as [|b L2]; [reflexivity|].
    exfalso. apply (class_top_nonempty b L2).
    rewrite <- Hf. reflexivity.
  - destruct L2 as [|b L2].
    + exfalso. apply (class_top_nonempty a L1). now rewrite Hf.
    + destruct (Qeq_bool (Society_Welfare_Index a) (Society_Welfare_Index b))
        eqn:Eab.
      * apply Qeq_bool_iff in Eab.
        pose proof (Hf (Society_Welfare_Index a)) as Ha. simpl in Ha.
        unfold same_welfare in Ha.
        rewrite Qeq_bool_refl in Ha.
        assert (Hba : Qeq_bool (Society_Welfare_Index b)
                        (Society_Welfare_Index a) = true)
          by (apply Qeq_bool_iff; lra).
        rewrite Hba in Ha. injection Ha as <- _.
        f_equal. apply IH.
        -- now apply StronglySorted_inv in H1 as [H1 _].
        -- now apply StronglySorted_inv in H2 as [H2 _].
        -- intros q. specialize (Hf q). simpl in Hf.
           destruct (same_welfare q a); [now injection Hf|exact Hf].
      * exfalso.
        assert (Hne : ~ Society_Welfare_Index a == Society_Welfare_Index b)
          by (intros E; apply Qeq_bool_iff in E; congruence).
        destruct (Qlt_le_dec (Society_Welfare_Index a)
                    (Society_Welfare_Index b)) as [Hlt|Hle].
        -- apply (class_top_nonempty b L2). rewrite <- Hf.
           apply filter_same_welfare_nil. intros x [<-|Hx]; [exact Hlt|].
           pose proof (strongly_sorted_head a L1 H1 x Hx). lra.
        -- apply Qle_lteq in Hle as [Hlt|Heq]; [|apply Hne; lra].
           apply (class_top_nonempty a L1). rewrite Hf.
           apply filter_same_welfare_nil. intros x [<-|Hx]; [exact Hlt|].
           pose proof (strongly_sorted_head b L2 H2 x Hx). lra.
Qed.

(** C8: the fallback ranker [nlargest n] returns the first [n] rows of the
    candidate list ranked by welfare index, descending, where rows of equal
    welfare keep their candidate (catalogue) order; that ranking is the
    only sorted, order-keeping arrangement of the candidates, so the output
    is fully determined by the candidate list and [n]. *)
Theorem fallback_stable_top_n (c : list row) (n : nat) :
  Permutation (sort_by_welfare c) c /\
  Sorted welfare_desc (sort_by_welfare c) /\
  (forall q, filter (same_welfare q) (sort_by_welfare c) =
             filter (same_welfare q) c) /\
  nlargest n c = firstn n (sort_by_welfare c) /\
  (forall L, Sorted welfare_desc L ->
     (forall q, filter (same_welfare q) L = filter (same_welfare q) c) ->
     nlargest n c = firstn n L).
Proof.
  split; [apply sort_by_welfare_perm|].
  split; [apply sort_by_welfare_sorted|].
  split; [intros q; apply sort_by_welfare_stable|].
  split; [reflexivity|].
  intros L HL Hq. unfold nlargest. f_equal.
  apply stable_sorted_unique.
  - apply Sorted_StronglySorted; [apply welfare_desc_trans|].
    apply sort_by_welfare_sorted.
  - apply Sorted_StronglySorted; [apply welfare_desc_trans|exact HL].
  - intros q. rewrite sort_by_welfare_stable. symmetry. apply Hq.
Qed.

(* ------------------------------------------------------------------ *)
(** ** Budget *)

Lemma run_table_cons_ok g pr f d t df tr :
  g = true -> pr = Ok f ->
  run_table ((g, pr, d) :: t) (df, tr) = run_table t (filter f df, tr ++ [d]).
Proof. intros -> ->. reflexivity. Qed.

Lemma truthy_nonzero b : ~ b == 0 -> truthy (PNum b) = true.
Proof.
  intros H. simpl. destruct (Qeq_bool b 0) eqn:E; [|reflexivity].
  apply Qeq_bool_iff in E. contradiction.
Qed.

Lemma rent_fields_budget p b a rent :
  monthly_budget p = PNum b -> ~ b == 0 ->
  py_or (apartment_size_sqm p) (PNum 80) = PNum a ->
  rent_fields p rent = Ok (Some (rent * a), Some (b - rent * a)).
Proof.
  intros Hb Hb0 Ha. unfold rent_fields.
  rewrite Hb, (truthy_nonzero b Hb0), Ha. reflexivity.
Qed.

Lemma in_firstn {A} n (l : list A) x : In x (firstn n l) -> In x l.
Proof.
  intros H. rewrite <- (firstn_skipn n l). apply in_or_app. now left.
Qed.

Lemma Forall2_in_r {A B} (R : A -> B -> Prop) l1 l2 y :
  Forall2 R l1 l2 -> In y l2 -> exists x, In x l1 /\ R x y.
Proof.
  induction 1 as [|x y' l1 l2 Hxy _ IH]; simpl; [contradiction|].
  intros [<-|Hy]; [eauto|].
  destruct (IH Hy) as [x' [Hx' Hr]]. eauto.
Qed.

Lemma budget_candidates df p b a c tr :
  monthly_budget p = PNum b -> ~ b == 0 ->
  py_or (apartment_size_sqm p) (PNum 80) = PNum a ->
  filter_by_constraints p df = Ok (c, tr) ->
  Forall (fun r => Avg_Rent_Per_SqM r * a <= b) c.
Proof.
  intros Hb Hb0 Ha Hf.
  rewrite filter_by_constraints_table in Hf. unfold constraint_table in Hf.
  cbv zeta in Hf. rewrite Ha, Hb in Hf.
  rewrite (run_table_cons_ok _ _ (fun r => Qle_bool (Avg_Rent_Per_SqM r * a) b)
             _ _ _ _ (truthy_nonzero b Hb0) eq_refl) in Hf.
  rewrite run_table_spec in Hf.
  destruct (active _); [|discriminate]. injection Hf as <- _.
  apply Forall_forall. intros r Hr.
  apply filter_In in Hr as [Hr _]. apply filter_In in Hr as [_ Hr].
  now apply Qle_bool_iff.
Qed.

(** The preference record with [monthly_budget] replaced. *)
Definition set_monthly_budget (p : prefs) (v : pyval) : prefs :=
  mkPrefs v (apartment_size_sqm p) (min_parks p) (min_schools p)
    (min_restaurants p) (min_cafes p) (min_green_index p) (max_population p)
    (min_total_stations p) (max_casualties p) (max_severely_damaged p)
    (max_heavily_damaged p) (earthquake_safe p) (preferences_text p).

Definition zero_budget_prefs : prefs :=
  {| monthly_budget := PNum 0; apartment_size_sqm := PNone;
     min_parks := PNone; min_schools := PNone; min_restaurants := PNone;
     min_cafes := PNone; min_green_index := PNone; max_population := PNone;
     min_total_stations := PNone; max_casualties := PNone;
     max_severely_damaged := PNone; max_heavily_damaged := PNone;
     earthquake_safe := PNone; preferences_text := PNone |}.

Lemma rent_fields_falsy p rent :
  truthy (monthly_budget p) = false -> rent_fields p rent = Ok (None, None).
Proof. intros H. unfold rent_fields. now rewrite H. Qed.

(** Every recommendation the pipeline returns is built by [entry_to_rec]
    from a kept hit or by [row_to_rec] from a candidate row. *)
Lemma search_recs_from df query p n calls recs :
  search_with_constraints df query p n = (calls, Ok recs) ->
  Forall (fun rc => (exists e, entry_to_rec p e = Ok rc) \/
                    (exists r, row_to_rec p r = Ok rc)) recs.
Proof.
  unfold search_with_constraints. cbv zeta.
  destruct (filter_by_constraints p df) as [[c tr]|e]; [|discriminate].
  destruct (Nat.eqb (List.length c) 0).
  { intros H; injection H as _ <-. constructor. }
  destruct (bind _ _) as [recs'|e] eqn:E.
  - intros H; injection H as _ <-.
    destruct (query _ _) as [hits|]; simpl in E; [|discriminate].
    apply map_result_Forall2 in E. apply Forall_forall. intros rc Hrc.
    destruct (Forall2_in_r _ _ _ _ E Hrc) as [en [_ Hen]]. left. eauto.
  - intros H; injection H as _ H.
    apply map_result_Forall2 in H. apply Forall_forall. intros rc Hrc.
    destruct (Forall2_in_r _ _ _ _ H Hrc) as [r [_ Hr]]. right. eauto.
Qed.

(** C4 (corrected): when [monthly_budget] is a non-zero number [b] and the
    effective area [a] is the apartment size when it is a non-zero number
    and 80 when it is null or zero, every candidate satisfies
    [rate * a <= b], and every recommendation of the fallback path is built
    from a candidate with [monthly_rent = rate * a] and
    [budget_remaining = b - rate * a >= 0].  A budget of 0 is falsy: the
    filter then behaves exactly as with no budget (no budget predicate, no
    description), and no recommendation, on either path, carries
    [monthly_rent] or [budget_remaining]. *)
Theorem budget_bound_and_remaining (df : list row) (p : prefs) :
  (forall b a,
     monthly_budget p = PNum b -> ~ b == 0 ->
     py_or (apartment_size_sqm p) (PNum 80) = PNum a ->
     (forall c tr, filter_by_constraints p df = Ok (c, tr) ->
        Forall (fun r => Avg_Rent_Per_SqM r * a <= b) c) /\
     (forall query n calls recs,
        search_with_constraints df query p n = (calls, Ok recs) ->
        In (CallFallback n) calls ->
        exists c tr, filter_by_constraints p df = Ok (c, tr) /\
        Forall (fun rc => exists r, In r c /\ rec_metadata rc = MetaRow r /\
                  monthly_rent rc = Some (Avg_Rent_Per_SqM r * a) /\
                  budget_remaining rc = Some (b - Avg_Rent_Per_SqM r * a) /\
                  0 <= b - Avg_Rent_Per_SqM r * a) recs)) /\
  (monthly_budget p = PNum 0 ->
     filter_by_constraints p df =
       filter_by_constraints (set_monthly_budget p PNone) df /\
     (forall query n calls recs,
        search_with_constraints df query p n = (calls, Ok recs) ->
        Forall (fun rc => monthly_rent rc = None /\ budget_remaining rc = None)
          recs)).
Proof.
  split.
  - intros b a Hb Hb0 Ha. split.
    + intros c tr. now apply budget_candidates.
    + intros query n calls recs Hs Hcall.
      destruct (search_fallback_inv _ _ _ _ _ _ Hs Hcall) as [c [tr [Hf Hr]]].
      exists c, tr. split; [exact Hf|].
      pose proof (budget_candidates _ _ _ _ _ _ Hb Hb0 Ha Hf) as Hc.
      symmetry in Hr. apply map_result_Forall2 in Hr.
      apply Forall_forall. intros rc Hrc.
      destruct (Forall2_in_r _ _ _ _ Hr Hrc) as [r [Hin Hrow]].
      unfold row_to_rec in Hrow.
      rewrite (rent_fields_budget p b a _ Hb Hb0 Ha) in Hrow.
      simpl in Hrow. injection Hrow as <-. simpl.
      apply in_firstn in Hin.
      apply (Permutation_in _ (sort_by_welfare_perm c)) in Hin.
      exists r. repeat split; auto.
      rewrite Forall_forall in Hc. specialize (Hc r Hin). lra.
  - intros Hb0.
    assert (Hf : truthy (monthly_budget p) = false) by now rewrite Hb0.
    split.
    + unfold filter_by_constraints, set_monthly_budget.
      rewrite Hb0. reflexivity.
    + intros query n calls recs Hs.
      apply search_recs_from in Hs. revert Hs. apply Forall_impl.
      intros rc [[e He]|[r Hr]].
      * unfold entry_to_rec in He. rewrite rent_fields_falsy in He by exact Hf.
        simpl in He. injection He as <-. auto.
      * unfold row_to_rec in Hr. rewrite rent_fields_falsy in Hr by exact Hf.
        simpl in Hr. injection Hr as <-. auto.
Qed.

Lemma budget_bound_and_remaining_witness :
  monthly_budget scenario_prefs = PNum 32000 /\ ~ 32000 == 0 /\
  py_or (apartment_size_sqm scenario_prefs) (PNum 80) = PNum 80 /\
  Forall (fun r => Avg_Rent_Per_SqM r * 80 <= 32000) [row_A; row_C] /\
  monthly_budget zero_budget_prefs = PNum 0 /\
  filter_by_constraints zero_budget_prefs catalog3 =
    filter_by_constraints (set_monthly_budget zero_budget_prefs PNone) catalog3.
Proof.
  assert (Hb : monthly_budget scenario_prefs = PNum 32000) by reflexivity.
  assert (Hb0 : ~ 32000 == 0) by (intro H; vm_compute in H; discriminate).
  assert (Ha : py_or (apartment_size_sqm scenario_prefs) (PNum 80) = PNum 80)
    by reflexivity.
  assert (Hz : monthly_budget zero_budget_prefs = PNum 0) by reflexivity.
  split; [exact Hb|split; [exact Hb0|split; [exact Ha|split; [|split; [exact Hz|]]]]].
  - apply (proj1 (proj1 (budget_bound_and_remaining catalog3 scenario_prefs)
                    32000 80 Hb Hb0 Ha) [row_A; row_C] scenario_trace).
    vm_compute. reflexivity.
  - exact (proj1 (proj2 (budget_bound_and_remaining catalog3 zero_budget_prefs)
                    Hz)).
Defined.

(** C4 counterexample: a budget of 0 is non-null but falsy, so the budget
    filter is skipped and row A, whose rent is 300 * 80 > 0, stays a
    candidate. *)
Lemma zero_budget_not_enforced :
  monthly_budget zero_budget_prefs = PNum 0 /\
  filter_by_constraints zero_budget_prefs catalog3 = Ok (catalog3, []) /\
  In row_A catalog3 /\
  ~ (Avg_Rent_Per_SqM row_A * 80 <= 0).
Proof.
  split; [reflexivity|split; [vm_compute; reflexivity|split]].
  - now left.
  - intro H. vm_compute in H. now apply H.
Qed.

(* ------------------------------------------------------------------ *)
(** ** The post-filter of the semantic retriever *)

(** The membership test the loop applies to a hit. *)
Definition hit_test (filtered_mahalles filtered_ilces : list string)
    (e : entry) : bool :=
  py_in (meta_mahalle e) filtered_mahalles && py_in (meta_ilce e) filtered_ilces.

Lemma keep_matches_prefix mh ih n hits acc :
  (List.length acc < n)%nat ->
  keep_matches mh ih n hits acc =
  acc ++ firstn (n - List.length acc) (filter (hit_test mh ih) hits).
Proof.
  revert acc. induction hits as [|e hits IH]; intros acc Hlt; simpl.
  - now rewrite firstn_nil, app_nil_r.
  - unfold hit_test at 1.
    destruct (py_in (meta_mahalle e) mh && py_in (meta_ilce e) ih); simpl.
    + rewrite length_app. simpl.
      replace (n - List.length acc)%nat
        with (S (n - (List.length acc + 1)))%nat by lia.
      simpl. destruct (Nat.leb n (List.length acc + 1)) eqn:E.
      * apply Nat.leb_le in E.
        replace (n - (List.length acc + 1))%nat with 0%nat by lia.
        reflexivity.
      * apply Nat.leb_gt in E. rewrite IH by (rewrite length_app; simpl; lia).
        rewrite length_app, <- app_assoc. reflexivity.
    + now apply IH.
Qed.

(** For [n >= 1] the retriever keeps the first [n] hits, in the index's
    rank order, that pass the component-wise membership test. *)
Lemma keep_matches_firstn mh ih n hits :
  (1 <= n)%nat ->
  keep_matches mh ih n hits [] = firstn n (filter (hit_test mh ih) hits).
Proof.
  intros H. rewrite keep_matches_prefix by (simpl; lia).
  simpl. now rewrite Nat.sub_0_r.
Qed.

Definition row_B2 : row := mk_sample "B" "D2" 300 1 (1 # 2).
Definition row_BX : row := mk_sample "B" "D1" 600 1 (1 # 2).
(** Two neighbourhoods named B, in districts D2 and D1. *)
Definition catalog_amb : list row := [row_A; row_B2; row_BX].

Definition budget_only_prefs : prefs :=
  {| monthly_budget := PNum 32000; apartment_size_sqm := PNone;
     min_parks := PNone; min_schools := PNone; min_restaurants := PNone;
     min_cafes := PNone; min_green_index := PNone; max_population := PNone;
     min_total_stations := PNone; max_casualties := PNone;
     max_severely_damaged := PNone; max_heavily_damaged := PNone;
     earthquake_safe := PNone; preferences_text := PNone |}.

Definition entry_BX : entry := mkEntry "D1_B" "B" "D1" (Some 600) (1 # 10).
Definition index_BX (t : pyval) (k : nat) : result (list entry) :=
  Ok [entry_BX].

Definition identifier (r : row) : string * string := (Ilce r, Mahalle r).

(** C1, evaluated at its failing input: B in D1 (rent 600 * 80 = 48000)
    is excluded by the budget 32000, so the candidates are A in D1 and B
    in D2; the index's top hit, B in D1, passes the component-wise test
    ("B" is a candidate name, "D1" a candidate district) and is returned,
    with a negative remaining budget. *)
Theorem retriever_returns_non_candidate :
  filter_by_constraints budget_only_prefs catalog_amb =
    Ok ([row_A; row_B2], [Desc "Budget: <=" (PNum 32000)]) /\
  ~ In ("D1", "B")%string (map identifier [row_A; row_B2]) /\
  match search_with_constraints catalog_amb index_BX budget_only_prefs 3 with
  | (_, Ok [rc]) =>
      (rec_ilce rc, rec_mahalle rc) = ("D1", "B")%string /\
      exists x, budget_remaining rc = Some x /\ x < 0
  | _ => False
  end.
Proof.
  split; [vm_compute; reflexivity|split].
  - simpl. intros [H|[H|H]]; [discriminate|discriminate|contradiction].
  - vm_compute. split; [reflexivity|]. eexists. split; [reflexivity|].
    vm_compute. reflexivity.
Qed.

(** With [n_results = 0] the loop appends the first kept hit before its
    length test, so one item is returned. *)
Lemma retriever_zero_count_keeps_one :
  keep_matches ["B"%string] ["D1"%string] 0 [entry_BX; entry_BX] [] = [entry_BX].
Proof. reflexivity. Qed.

(* ------------------------------------------------------------------ *)
(** ** [explain_match] *)

(** The errors [explain_match] can raise: an ordering comparison between a
    number and a string ([TypeError]) and [meta[key]] on a missing key
    ([KeyError]). *)
Inductive py_error : Type := PyTypeError | PyKeyError.

Inductive outcome (A : Type) : Type :=
| Done (a : A)
| Fail (e : py_error).
Arguments Done {A} a.
Arguments Fail {A} e.

Definition obind {A B} (m : outcome A) (k : A -> outcome B) : outcome B :=
  match m with Done a => k a | Fail e => Fail e end.

Notation "x <-? m ;; k" := (obind m (fun x => k))
  (at level 61, m at next level, right associativity).

(** The numeric entries of a metadata dict, as an association list (the
    first binding of a key is the one read). *)
Definition meta_dict : Type := list (string * Q).

Fixpoint dict_get (d : meta_dict) (k : string) : option Q :=
  match d with
  | [] => None
  | (k', v) :: d' => if String.eqb k k' then Some v else dict_get d' k
  end.

(** [meta.get(key, default)] *)
Definition meta_get (d : meta_dict) (k : string) (default : Q) : Q :=
  match dict_get d k with Some v => v | None => default end.

(** [meta[key]] *)
Definition meta_index (d : meta_dict) (k : string) : outcome Q :=
  match dict_get d k with Some v => Done v | None => Fail PyKeyError end.

(** The right operand of [meta.get(key, 0) >= preferences[key]]: a number
    or a bool compares, a string (or [None]) raises. *)
Definition cmp_operand (v : pyval) : outcome Q :=
  match v with
  | PNum q => Done q
  | PBool b => Done (bool_to_Q b)
  | _ => Fail PyTypeError
  end.

(** The reasons, by the f-string they come from and the number it
    formats. *)
Inductive reason : Type :=
| WellUnderBudget (saves : Q)
| WithinBudget (saves : Q)
| MeetsGreen (g : Q)
| HasSchools (n : Q)
| HasParks (n : Q)
| GoodTransport (n : Q)
| EqExcellent
| EqGood (c : Q)
| EqModerate (c : Q).

(** [a > b] *)
Definition Qgt_bool (a b : Q) : bool := negb (Qle_bool a b).

(** [if rec.get('budget_remaining'): ...] *)
Definition budget_reasons (budget_remaining : option Q) : list reason :=
  match budget_remaining with
  | Some x =>
      if truthy (PNum x) then
        if Qgt_bool x 5000 then [WellUnderBudget x]
        else if Qgt_bool x 0 then [WithinBudget x]
        else []
      else []
  | None => []
  end.

(** [if preferences.get(pk) and meta.get(mk, 0) >= preferences[pk]:
       reasons.append(... meta[mk] ...)] *)
Definition min_reason (pv : pyval) (meta : meta_dict) (mk : string)
    (mkr : Q -> reason) : outcome (list reason) :=
  if truthy pv then
    t <-? cmp_operand pv ;;
    if Qle_bool t (meta_get meta mk 0) then
      v <-? meta_index meta mk ;; Done [mkr v]
    else Done []
  else Done [].

(** The public-transport block. *)
Definition transport_reasons (pv : pyval) (meta : meta_dict)
  : outcome (list reason) :=
  if truthy pv then
    let ts := meta_get meta "total_stations" 0 in
    t <-? cmp_operand pv ;;
    if Qle_bool t ts then Done [GoodTransport ts] else Done []
  else Done [].

(** The earthquake-safety block. *)
Definition earthquake_reasons (p : prefs) (meta : meta_dict) : list reason :=
  if truthy (earthquake_safe p) || is_not_none (max_casualties p) then
    let casualties := meta_get meta "can_kaybi_sayisi" 0 in
    if Qeq_bool casualties 0 then [EqExcellent]
    else if Qle_bool casualties 5 then [EqGood casualties]
    else if Qle_bool casualties 10 then [EqModerate casualties]
    else []
  else [].

(** [explain_match(rec, preferences)], given [rec.get('budget_remaining')]
    and the numeric entries of [rec['metadata']]. *)
Definition explain_match (budget_remaining : option Q) (meta : meta_dict)
    (p : prefs) : outcome (list reason) :=
  g <-? min_reason (min_green_index p) meta "green_index" MeetsGreen ;;
  s <-? min_reason (min_schools p) meta "school" HasSchools ;;
  k <-? min_reason (min_parks p) meta "park" HasParks ;;
  t <-? transport_reasons (min_total_stations p) meta ;;
  Done (budget_reasons budget_remaining ++ g ++ s ++ k ++ t ++
        earthquake_reasons p meta).

(** The numeric entries of the metadata dict [_dataframe_to_recommendations]
    builds from a row, in source order (the per-kind station counts, which
    [explain_match] never reads, are not columns of [row]). *)
Definition row_metadata (r : row) : meta_dict :=
  [("green_index", Green_Index r);
   ("society_welfare_index", Society_Welfare_Index r);
   ("avg_rent_per_sqm", Avg_Rent_Per_SqM r);
   ("restaurant", restaurant r); ("school", school r); ("park", park r);
   ("cafe", cafe r); ("nufus", Nufus r);
   ("total_stations", total_stations r)]%string.

(** A CSV row as [create_metadata] (src/utils/vector_db_creation.py) reads
    it: the two names, the coordinates, and the numeric cells present in the
    file by column name, NaN as [None]. *)
Record csv_row : Type := mkCsv {
  csv_Mahalle : string;
  csv_Ilce : string;
  csv_Enlem : Q;
  csv_Boylam : Q;
  csv_cells : list (string * option Q)
}.

Fixpoint cell (cells : list (string * option Q)) (col : string)
  : option (option Q) :=
  match cells with
  | [] => None
  | (c, v) :: cells' => if String.eqb col c then Some v else cell cells' col
  end.

(** [numeric_fields] of [create_metadata]: metadata key, CSV column. *)
Definition numeric_fields : list (string * string) :=
  [("avg_rent_per_sqm", "Avg_Rent_Per_SqM");
   ("green_index", "Green_Index");
   ("society_welfare_index", "Society_Welfare_Index");
   ("yasam_kalitesi", "INDEX_YASAM_KALITESI");
   ("yurunebilirlik", "INDEX_YURUNEBILIRLIK");
   ("kulturel_aktivite", "KULTUREL_AKTIVITE_INDEX");
   ("nufus", "Nüfus");
   ("restaurant", "restaurant"); ("library", "library");
   ("school", "school"); ("park", "park"); ("cafe", "cafe");
   ("pharmacy", "pharmacy"); ("hospital", "hospital")]%string.

(** The numeric entries of [create_metadata(row)]: the coordinates, then
    each numeric field whose column is present and not NaN. *)
Definition create_metadata (r : csv_row) : meta_dict :=
  [("latitude", csv_Enlem r); ("longitude", csv_Boylam r)]%string ++
  flat_map (fun f =>
              match cell (csv_cells r) (snd f) with
              | Some (Some v) => [(fst f, v)]
              | _ => []
              end) numeric_fields.

(** What each reason asserts about the recommendation and the
    preferences. *)
Definition reason_ok (budget_remaining : option Q) (p : prefs)
    (meta : meta_dict) (x : reason) : Prop :=
  let eq_guard :=
    truthy (earthquake_safe p) || is_not_none (max_casualties p) = true in
  let casualties := meta_get meta "can_kaybi_sayisi" 0 in
  match x with
  | WellUnderBudget s => budget_remaining = Some s /\ 5000 < s
  | WithinBudget s => budget_remaining = Some s /\ 0 < s <= 5000
  | MeetsGreen g =>
      truthy (min_green_index p) = true /\
      exists t, cmp_operand (min_green_index p) = Done t /\
        dict_get meta "green_index" = Some g /\ t <= g
  | HasSchools n =>
      truthy (min_schools p) = true /\
      exists t, cmp_operand (min_schools p) = Done t /\
        dict_get meta "school" = Some n /\ t <= n
  | HasParks n =>
      truthy (min_parks p) = true /\
      exists t, cmp_operand (min_parks p) = Done t /\
        dict_get meta "park" = Some n /\ t <= n
  | GoodTransport n =>
      truthy (min_total_stations p) = true /\
      exists t, cmp_operand (min_total_stations p) = Done t /\
        n = meta_get meta "total_stations" 0 /\ t <= n
  | EqExcellent => eq_guard /\ casualties == 0
  | EqGood c => eq_guard /\ c = casualties /\ ~ c == 0 /\ c <= 5
  | EqModerate c => eq_guard /\ c = casualties /\ 5 < c <= 10
  end%string.

Lemma Qgt_bool_true a b : Qgt_bool a b = true -> b < a.
Proof.
  unfold Qgt_bool. intros H. apply Qle_bool_false. now destruct (Qle_bool a b).
Qed.

Lemma Qgt_bool_false a b : Qgt_bool a b = false -> a <= b.
Proof.
  unfold Qgt_bool. intros H. apply Qle_bool_iff. now destruct (Qle_bool a b).
Qed.

Lemma budget_reasons_ok br p d : Forall (reason_ok br p d) (budget_reasons br).
Proof.
  destruct br as [x|]; simpl; [|constructor].
  destruct (negb (Qeq_bool x 0)); [|constructor].
  destruct (Qgt_bool x 5000) eqn:E1.
  - repeat constructor. now apply Qgt_bool_true.
  - apply Qgt_bool_false in E1.
    destruct (Qgt_bool x 0) eqn:E2; repeat constructor; auto.
    now apply Qgt_bool_true.
Qed.

Lemma min_reason_ok (P : reason -> Prop) pv d mk mkr l :
  (forall t v, truthy pv = true -> cmp_operand pv = Done t ->
     dict_get d mk = Some v -> t <= v -> P (mkr v)) ->
  min_reason pv d mk mkr = Done l -> Forall P l.
Proof.
  intros HP. unfold min_reason.
  destruct (truthy pv) eqn:Ht; [|intros H; injection H as <-; constructor].
  destruct (cmp_operand pv) as [t|] eqn:Hc; simpl; [|discriminate].
  destruct (Qle_bool t (meta_get d mk 0)) eqn:E;
    [|intros H; injection H as <-; constructor].
  unfold meta_index. unfold meta_get in E.
  destruct (dict_get d mk) as [v|] eqn:Hv; simpl; [|discriminate].
  intros H; injection H as <-. apply Qle_bool_iff in E.
  constructor; [eapply HP; eauto|constructor].
Qed.

Lemma transport_reasons_ok br p d l :
  transport_reasons (min_total_stations p) d = Done l ->
  Forall (reason_ok br p d) l.
Proof.
  unfold transport_reasons.
  destruct (truthy (min_total_stations p)) eqn:Ht;
    [|intros H; injection H as <-; constructor].
  destruct (cmp_operand (min_total_stations p)) as [t|] eqn:Hc; simpl;
    [|discriminate].
  destruct (Qle_bool _ _) eqn:E; intros H; injection H as <-; [|constructor].
  apply Qle_bool_iff in E. repeat constructor; auto. eauto.
Qed.

Lemma earthquake_reasons_ok br p d :
  Forall (reason_ok br p d) (earthquake_reasons p d).
Proof.
  unfold earthquake_reasons.
  destruct (truthy (earthquake_safe p) || is_not_none (max_casualties p))
    eqn:G; [|constructor].
  destruct (Qeq_bool _ 0) eqn:E0.
  - apply Qeq_bool_iff in E0. repeat constructor; auto.
  - assert (N : ~ meta_get d "can_kaybi_sayisi" 0 == 0).
    { intros H. apply Qeq_bool_iff in H. congruence. }
    destruct (Qle_bool _ 5) eqn:E5.
    + apply Qle_bool_iff in E5. repeat constructor; auto.
    + apply Qle_bool_false in E5.
      destruct (Qle_bool _ 10) eqn:E10; [|constructor].
      apply Qle_bool_iff in E10. repeat constructor; auto.
Qed.

Lemma explain_match_done br d p rs :
  explain_match br d p = Done rs ->
  exists g s k t,
    min_reason (min_green_index p) d "green_index" MeetsGreen = Done g /\
    min_reason (min_schools p) d "school" HasSchools = Done s /\
    min_reason (min_parks p) d "park" HasParks = Done k /\
    transport_reasons (min_total_stations p) d = Done t /\
    rs = budget_reasons br ++ g ++ s ++ k ++ t ++ earthquake_reasons p d.
Proof.
  unfold explain_match.
  destruct (min_reason (min_green_index p) d _ MeetsGreen) as [g|];
    simpl; [|discriminate].
  destruct (min_reason (min_schools p) d _ HasSchools) as [s|];
    simpl; [|discriminate].
  destruct (min_reason (min_parks p) d _ HasParks) as [k|];
    simpl; [|discriminate].
  destruct (transport_reasons (min_total_stations p) d) as [t|];
    simpl; [|discriminate].
  intros H; injection H as <-. exists g, s, k, t. auto.
Qed.

Lemma dict_get_in d k v : dict_get d k = Some v -> In (k, v) d.
Proof.
  induction d as [|[k' v'] d IH]; simpl; [discriminate|].
  destruct (String.eqb k k') eqn:E; intros H.
  - apply String.eqb_eq in E. injection H as <-. subst. now left.
  - right. auto.
Qed.

Lemma create_metadata_key c k v :
  In (k, v) (create_metadata c) ->
  In k (["latitude"; "longitude"]%string ++ map fst numeric_fields).
Proof.
  unfold create_metadata. rewrite !in_app_iff. intros [H|H].
  - left. destruct H as [H|[H|[]]]; injection H as <- _; simpl; auto.
  - right. apply in_flat_map in H as [f [Hf Hx]].
    destruct (cell (csv_cells c) (snd f)) as [[w|]|]; [|destruct Hx..].
    destruct Hx as [H|[]]. injection H as <- _. now apply in_map.
Qed.

Lemma create_metadata_no_key c k :
  ~ In k (["latitude"; "longitude"]%string ++ map fst numeric_fields) ->
  dict_get (create_metadata c) k = None.
Proof.
  intros H. destruct (dict_get (create_metadata c) k) eqn:E; [|reflexivity].
  exfalso. apply H. eapply create_metadata_key, dict_get_in. eauto.
Qed.

Lemma explain_match_earthquake_no_key br d p rs :
  dict_get d "can_kaybi_sayisi" = None ->
  truthy (earthquake_safe p) || is_not_none (max_casualties p) = true ->
  explain_match br d p = Done rs -> exists pre, rs = pre ++ [EqExcellent].
Proof.
  intros Hk G H. apply explain_match_done in H as (g & s & k & t & _ & _ & _ & _ & ->).
  exists (budget_reasons br ++ g ++ s ++ k ++ t).
  unfold earthquake_reasons. rewrite G. unfold meta_get. rewrite Hk.
  simpl. now rewrite <- !app_assoc.
Qed.

Definition prefs_with_thresholds (green schools parks stations quake : pyval)
  : prefs :=
  mkPrefs PNone PNone parks schools PNone PNone green PNone stations PNone
          PNone PNone quake PNone.

Definition row_Q : row :=
  mkRow "Q" "D3" 300 2 3 5 4 (4 # 5) (3 # 5) 1000 12 (Some 50) (Some 7)
        (Some 20).

Definition csv_Q : csv_row :=
  mkCsv "Q" "D3" 41 29
    [("Green_Index", Some (4 # 5)); ("school", Some 3); ("park", Some 2);
     ("bus_station", Some 8); ("train_station", Some 4);
     ("can_kaybi_sayisi", Some 50)]%string.

Lemma explain_match_reasons_ok br d p rs :
  explain_match br d p = Done rs -> Forall (reason_ok br p d) rs.
Proof.
  intros H. apply explain_match_done in H as (g & s & k & t & Hg & Hs & Hk & Ht & ->).
  rewrite !Forall_app. repeat split.
  - apply budget_reasons_ok.
  - eapply min_reason_ok; [|exact Hg]. intros. simpl. eauto.
  - eapply min_reason_ok; [|exact Hs]. intros. simpl. eauto.
  - eapply min_reason_ok; [|exact Hk]. intros. simpl. eauto.
  - eapply transport_reasons_ok; eauto.
  - apply earthquake_reasons_ok.
Qed.

(** [explain_match] is sound: every reason it returns is backed by its
    test, the budget ones by the tier of [budget_remaining], the
    threshold ones by a truthy preference and a metadata value at least
    the threshold, the earthquake ones by the guard and the casualties
    read with [meta.get('can_kaybi_sayisi', 0)]. *)
Theorem explain_match_sound (br : option Q) (d : meta_dict) (p : prefs)
    (rs : list reason) :
  explain_match br d p = Done rs -> Forall (reason_ok br p d) rs.
Proof. apply explain_match_reasons_ok. Qed.

Lemma explain_match_sound_witness :
  explain_match (Some 6000) (row_metadata row_Q)
    (prefs_with_thresholds (PNum (1 # 2)) (PNum 2) (PNum 1) (PNum 10)
       (PBool true)) =
    Done [WellUnderBudget 6000; MeetsGreen (4 # 5); HasSchools 3;
          HasParks 2; GoodTransport 12; EqExcellent] /\
  Forall (reason_ok (Some 6000)
            (prefs_with_thresholds (PNum (1 # 2)) (PNum 2) (PNum 1) (PNum 10)
               (PBool true)) (row_metadata row_Q))
    [WellUnderBudget 6000; MeetsGreen (4 # 5); HasSchools 3;
     HasParks 2; GoodTransport 12; EqExcellent].
Proof.
  split; [vm_compute; reflexivity|].
  apply explain_match_sound. vm_compute. reflexivity.
Defined.

(** Neither metadata dict the code builds (the index's [create_metadata]
    and the fallback's [_dataframe_to_recommendations]) carries
    [can_kaybi_sayisi], so once the earthquake guard holds, the last reason
    is always "Excellent earthquake safety (0 expected casualties)",
    whatever the casualties of the neighbourhood. *)
Theorem explain_match_earthquake_always_excellent (br : option Q) (p : prefs)
    (r : row) (c : csv_row) :
  truthy (earthquake_safe p) || is_not_none (max_casualties p) = true ->
  (forall rs, explain_match br (row_metadata r) p = Done rs ->
     exists pre, rs = pre ++ [EqExcellent]) /\
  (forall rs, explain_match br (create_metadata c) p = Done rs ->
     exists pre, rs = pre ++ [EqExcellent]).
Proof.
  intros G. split; intros rs; apply explain_match_earthquake_no_key; auto.
  apply create_metadata_no_key. simpl. intuition discriminate.
Qed.

Lemma explain_match_earthquake_always_excellent_witness :
  can_kaybi_sayisi row_Q = Some 50 /\
  cell (csv_cells csv_Q) "can_kaybi_sayisi" = Some (Some 50) /\
  explain_match None (row_metadata row_Q)
    (prefs_with_thresholds PNone PNone PNone PNone (PBool true)) =
    Done [EqExcellent] /\
  ((forall rs, explain_match None (row_metadata row_Q)
      (prefs_with_thresholds PNone PNone PNone PNone (PBool true)) = Done rs ->
      exists pre, rs = pre ++ [EqExcellent]) /\
   (forall rs, explain_match None (create_metadata csv_Q)
      (prefs_with_thresholds PNone PNone PNone PNone (PBool true)) = Done rs ->
      exists pre, rs = pre ++ [EqExcellent])).
Proof.
  split; [reflexivity|]. split; [reflexivity|]. split; [vm_compute; reflexivity|].
  apply explain_match_earthquake_always_excellent. reflexivity.
Defined.

(** The index metadata has no [total_stations] entry, so for a positive
    [min_total_stations] a semantically retrieved recommendation never gets
    the public-transport reason, whatever its station counts. *)
Theorem index_metadata_no_transport_reason (br : option Q) (p : prefs)
    (c : csv_row) (t : Q) (rs : list reason) :
  min_total_stations p = PNum t -> 0 < t ->
  explain_match br (create_metadata c) p = Done rs ->
  forall n, ~ In (GoodTransport n) rs.
Proof.
  intros Hp Ht H n Hin. apply explain_match_reasons_ok in H.
  rewrite Forall_forall in H. apply H in Hin as [_ (t' & Hc & -> & Hle)].
  rewrite Hp in Hc. injection Hc as <-. revert Hle. unfold meta_get.
  rewrite create_metadata_no_key by (simpl; intuition discriminate).
  intros Hle. lra.
Qed.

Lemma index_metadata_no_transport_reason_witness :
  explain_match None (create_metadata csv_Q)
    (prefs_with_thresholds PNone PNone PNone (PNum 5) PNone) = Done [] /\
  forall n, ~ In (GoodTransport n) [].
Proof.
  split; [vm_compute; reflexivity|].
  apply (index_metadata_no_transport_reason None
           (prefs_with_thresholds PNone PNone PNone (PNum 5) PNone)
           csv_Q 5); [reflexivity|lra|vm_compute; reflexivity].
Defined.

(** A negative green-index threshold on a metadata dict without
    [green_index] passes the comparison with the default 0 and then raises
    [KeyError] at [meta['green_index']]. *)
Theorem explain_match_missing_key_error (br : option Q) (d : meta_dict)
    (p : prefs) (t : Q) :
  dict_get d "green_index" = None -> min_green_index p = PNum t -> t < 0 ->
  explain_match br d p = Fail PyKeyError.
Proof.
  intros Hd Hp Ht. unfold explain_match, min_reason, meta_get, meta_index.
  rewrite Hp, Hd, truthy_nonzero by lra. cbn [cmp_operand obind].
  replace (Qle_bool t 0) with true by (symmetry; apply Qle_bool_iff; lra).
  reflexivity.
Qed.

Lemma explain_match_missing_key_error_witness :
  dict_get (create_metadata (mkCsv "Q" "D3" 41 29 [])) "green_index" = None /\
  explain_match None (create_metadata (mkCsv "Q" "D3" 41 29 []))
    (prefs_with_thresholds (PNum (-1)) PNone PNone PNone PNone) =
    Fail PyKeyError.
Proof.
  split; [reflexivity|].
  apply explain_match_missing_key_error with (t := -1);
    [reflexivity|reflexivity|lra].
Defined.

(* ------------------------------------------------------------------ *)
(** ** Loading the catalogue: [NeighborhoodAgent.__init__] *)

(** A row of the CSV file as read by [pd.read_csv]; the station counts may
    be NaN. *)
Record raw_row : Type := mkRaw {
  raw_Mahalle : string;
  raw_Ilce : string;
  raw_Avg_Rent_Per_SqM : Q;
  raw_park : Q;
  raw_school : Q;
  raw_restaurant : Q;
  raw_cafe : Q;
  raw_Green_Index : Q;
  raw_Society_Welfare_Index : Q;
  raw_Nufus : Q;
  raw_bus_station : option Q;
  raw_train_station : option Q;
  raw_transit_station : option Q;
  raw_can_kaybi_sayisi : option Q;
  raw_cok_agir_hasarli_bina_sayisi : option Q;
  raw_agir_hasarli_bina_sayisi : option Q
}.

(** [series.fillna(0)] on one cell. *)
Definition fillna0 (v : option Q) : Q :=
  match v with Some q => q | None => 0 end.

(** The [total_stations] column added to one row. *)
Definition with_total_stations (r : raw_row) : row :=
  mkRow (raw_Mahalle r) (raw_Ilce r) (raw_Avg_Rent_Per_SqM r) (raw_park r)
    (raw_school r) (raw_restaurant r) (raw_cafe r) (raw_Green_Index r)
    (raw_Society_Welfare_Index r) (raw_Nufus r)
    (fillna0 (raw_bus_station r) + fillna0 (raw_train_station r) +
     fillna0 (raw_transit_station r))
    (raw_can_kaybi_sayisi r) (raw_cok_agir_hasarli_bina_sayisi r)
    (raw_agir_hasarli_bina_sayisi r).

(** [self.df = self.df[self.df['Mahalle'] != 'Unknown']], then the
    [total_stations] column. *)
Definition load_catalog (raws : list raw_row) : list row :=
  map with_total_stations
    (filter (fun r => negb (String.eqb (raw_Mahalle r) "Unknown")) raws).

(* ------------------------------------------------------------------ *)
(** ** Document ids of the vector index: [create_vector_db] *)

(** [s.replace(' ', '_')] *)
Fixpoint replace_space (s : string) : string :=
  match s with
  | EmptyString => EmptyString
  | String c s' =>
      String.append
        (if String.eqb (String c EmptyString) " " then "_"
         else String c EmptyString)
        (replace_space s')
  end.

(** [str(n)] of a natural number, in decimal. *)
Fixpoint digits_aux (fuel n : nat) (acc : string) : string :=
  match fuel with
  | O => acc
  | S f =>
      let acc' := String (Ascii.ascii_of_nat (48 + n mod 10)) acc in
      if Nat.ltb n 10 then acc' else digits_aux f (n / 10) acc'
  end.

Definition nat_to_string (n : nat) : string := digits_aux (S n) n EmptyString.

(** [f"{row['İlçe']}_{row['Mahalle']}".replace(' ', '_')] *)
Definition base_id (r : csv_row) : string :=
  replace_space (String.append (csv_Ilce r) (String.append "_" (csv_Mahalle r))).

(** [id_counter], a dict from base id to counter. *)
Definition counter : Type := list (string * nat).

Fixpoint counter_get (m : counter) (k : string) : option nat :=
  match m with
  | [] => None
  | (k', v) :: m' => if String.eqb k k' then Some v else counter_get m' k
  end.

(** [id_counter[k] = v]: replaces the binding in place or appends it. *)
Fixpoint counter_set (m : counter) (k : string) (v : nat) : counter :=
  match m with
  | [] => [(k, v)]
  | (k', v') :: m' =>
      if String.eqb k k' then (k, v) :: m' else (k', v') :: counter_set m' k v
  end.

(** The id loop of [create_vector_db], from a given [id_counter]. *)
Fixpoint assign_ids (id_counter : counter) (df : list csv_row) : list string :=
  match df with
  | [] => []
  | r :: df' =>
      let b := base_id r in
      match counter_get id_counter b with
      | Some k =>
          String.append b (String.append "_" (nat_to_string (S k)))
            :: assign_ids (counter_set id_counter b (S k)) df'
      | None => b :: assign_ids (counter_set id_counter b 0) df'
      end
  end.

(** [ids] as built by [create_vector_db], from an empty [id_counter]. *)
Definition create_vector_db_ids (df : list csv_row) : list string :=
  assign_ids [] df.

(** The id of a row whose base id occurred [k] times before it. *)
Definition id_for (b : string) (k : nat) : string :=
  match k with
  | O => b
  | S _ => String.append b (String.append "_" (nat_to_string k))
  end.

(* ------------------------------------------------------------------ *)
(** ** The earlier filter: [filter_by_constraints] of src/main_v4.py *)

(** The same chain as [filter_by_constraints] up to the population filter,
    with nothing after it. *)
Definition filter_by_constraints_v4 (p : prefs) (df : list row)
  : result state :=
  let apartment_size := py_or (apartment_size_sqm p) (PNum 80) in
  st <- apply_filter (truthy (monthly_budget p))
          (budget_pred apartment_size (monthly_budget p))
          (Desc "Budget: <=" (monthly_budget p)) (df, []) ;;
  st <- apply_filter (truthy (min_parks p))
          (ge_pred park (min_parks p))
          (Desc "Parks: >=" (min_parks p)) st ;;
  st <- apply_filter (truthy (min_schools p))
          (ge_pred school (min_schools p))
          (Desc "Schools: >=" (min_schools p)) st ;;
  st <- apply_filter (truthy (min_restaurants p))
          (ge_pred restaurant (min_restaurants p))
          (Desc "Restaurants: >=" (min_restaurants p)) st ;;
  st <- apply_filter (truthy (min_cafes p))
          (ge_pred cafe (min_cafes p))
          (Desc "Cafes: >=" (min_cafes p)) st ;;
  st <- apply_filter (truthy (min_green_index p))
          (ge_pred Green_Index (min_green_index p))
          (Desc "Green Index: >=" (min_green_index p)) st ;;
  apply_filter (truthy (max_population p))
    (le_pred Nufus (max_population p))
    (Desc "Population: <=" (max_population p)) st.


Lemma counter_get_set m k v k' :
  counter_get (counter_set m k v) k' =
  if String.eqb k' k then Some v else counter_get m k'.
Proof.
  induction m as [|[k0 v0] m IH]; simpl; [reflexivity|].
  destruct (String.eqb k k0) eqn:E1; simpl.
  - apply String.eqb_eq in E1. subst k0.
    destruct (String.eqb k' k); reflexivity.
  - rewrite IH. destruct (String.eqb k' k) eqn:E2; [|reflexivity].
    apply String.eqb_eq in E2. subst k'.
    rewrite E1. reflexivity.
Qed.

(** [id_counter] holds, for each base id seen, its number of earlier
    occurrences minus one. *)
Definition counter_inv (m : counter) (seen : list string) : Prop :=
  forall b, counter_get m b =
    match count_occ string_dec seen b with O => None | S k => Some k end.

Lemma counter_inv_nil : counter_inv [] [].
Proof. intros b. reflexivity. Qed.

Lemma assign_ids_cons m seen r df :
  counter_inv m seen ->
  assign_ids m (r :: df) =
  id_for (base_id r) (count_occ string_dec seen (base_id r)) ::
  assign_ids (counter_set m (base_id r) (count_occ string_dec seen (base_id r))) df.
Proof.
  intros H. cbn [assign_ids]. rewrite H.
  destruct (count_occ string_dec seen (base_id r)); reflexivity.
Qed.

Lemma counter_inv_step m seen b :
  counter_inv m seen ->
  counter_inv (counter_set m b (count_occ string_dec seen b)) (seen ++ [b]).
Proof.
  intros H b'. rewrite counter_get_set, count_occ_app. simpl.
  destruct (String.eqb b' b) eqn:E.
  - apply String.eqb_eq in E. subst b'.
    destruct (string_dec b b) as [_|N]; [|contradiction].
    now rewrite Nat.add_1_r.
  - destruct (string_dec b b') as [->|_].
    + now rewrite String.eqb_refl in E.
    + rewrite Nat.add_0_r. apply H.
Qed.

Lemma assign_ids_nth df : forall m seen,
  counter_inv m seen ->
  forall i b, nth_error (map base_id df) i = Some b ->
  nth_error (assign_ids m df) i =
    Some (id_for b (count_occ string_dec (seen ++ firstn i (map base_id df)) b)).
Proof.
  induction df as [|r df IH]; intros m seen H i b Hb.
  - destruct i; discriminate.
  - rewrite (assign_ids_cons m seen r df H).
    destruct i as [|i]; simpl in Hb |- *.
    + injection Hb as <-. now rewrite app_nil_r.
    + rewrite (IH _ _ (counter_inv_step m seen (base_id r) H) i b Hb).
      now rewrite <- app_assoc.
Qed.

Lemma assign_ids_distinct df : forall m seen,
  counter_inv m seen -> NoDup (map base_id df) ->
  (forall b, In b (map base_id df) -> ~ In b seen) ->
  assign_ids m df = map base_id df.
Proof.
  induction df as [|r df IH]; intros m seen H Hnd Hs; [reflexivity|].
  rewrite (assign_ids_cons m seen r df H). simpl in Hnd, Hs |- *.
  inversion Hnd as [|? ? Hnin Hnd']; subst.
  assert (Hc : count_occ string_dec seen (base_id r) = 0%nat).
  { apply count_occ_not_In. apply Hs. now left. }
  rewrite Hc. simpl. f_equal.
  apply (IH _ (seen ++ [base_id r])).
  - rewrite <- Hc at 1. now apply counter_inv_step.
  - exact Hnd'.
  - intros b Hb Hin. apply in_app_iff in Hin as [Hin|[<-|[]]].
    + apply (Hs b); auto.
    + contradiction.
Qed.

Lemma append_length s t :
  String.length (String.append s t) = (String.length s + String.length t)%nat.
Proof. induction s as [|c s IH]; simpl; auto. Qed.

Lemma append_ne s t : t <> EmptyString -> String.append s t <> s.
Proof.
  intros Ht E. apply (f_equal String.length) in E. rewrite append_length in E.
  destruct t; [contradiction|simpl in E; lia].
Qed.

(** The document id of a row is its base id [İlçe_Mahalle] (spaces made
    underscores) when no earlier row has the same base id, and the base id
    followed by [_k] when [k] earlier rows have it. *)
Theorem doc_id_of_row (df : list csv_row) (i : nat) (b : string) :
  nth_error (map base_id df) i = Some b ->
  nth_error (create_vector_db_ids df) i =
    Some (id_for b (count_occ string_dec (firstn i (map base_id df)) b)).
Proof.
  intros H. apply (assign_ids_nth df [] [] counter_inv_nil i b H).
Qed.

(** When no two rows share a base id, the document ids are the base ids. *)
Theorem distinct_names_keep_base_ids (df : list csv_row) :
  NoDup (map base_id df) -> create_vector_db_ids df = map base_id df.
Proof.
  intros H. apply (assign_ids_distinct df [] []); auto.
  apply counter_inv_nil.
Qed.

(** The duplicate counter does not make the ids unique: the second of two
    rows with base id [b] gets [b_1], which is also the id of a later row
    whose base id is literally [b_1]. *)
Theorem doc_ids_can_collide (r1 r2 r3 : csv_row) :
  base_id r2 = base_id r1 ->
  base_id r3 = String.append (base_id r1) "_1" ->
  create_vector_db_ids [r1; r2; r3] =
    [base_id r1; String.append (base_id r1) "_1";
     String.append (base_id r1) "_1"] /\
  ~ NoDup (create_vector_db_ids [r1; r2; r3]).
Proof.
  intros H2 H3.
  assert (E : create_vector_db_ids [r1; r2; r3] =
    [base_id r1; String.append (base_id r1) "_1";
     String.append (base_id r1) "_1"]).
  { unfold create_vector_db_ids.
    rewrite (assign_ids_cons [] [] r1 _ counter_inv_nil).
    pose proof (counter_inv_step [] [] (base_id r1) counter_inv_nil) as I1.
    simpl in I1.
    rewrite (assign_ids_cons _ _ r2 _ I1).
    pose proof (counter_inv_step _ _ (base_id r2) I1) as I2.
    rewrite (assign_ids_cons _ _ r3 _ I2).
    rewrite H2, H3. simpl.
    destruct (string_dec (base_id r1) (base_id r1)) as [_|N];
      [|contradiction].
    destruct (string_dec (base_id r1) (String.append (base_id r1) "_1"))
      as [e|_].
    { exfalso. symmetry in e. revert e. apply append_ne. discriminate. }
    reflexivity. }
  split; [exact E|]. rewrite E. intros Hnd.
  inversion Hnd as [|? ? _ Hnd']; subst. inversion Hnd' as [|? ? Hn _]; subst.
  apply Hn. now left.
Qed.

Lemma load_catalog_in r raws :
  In r (load_catalog raws) ->
  exists x, In x raws /\ raw_Mahalle x <> "Unknown"%string /\
            r = with_total_stations x.
Proof.
  unfold load_catalog. intros H. apply in_map_iff in H as [x [<- Hx]].
  apply filter_In in Hx as [Hx Hu]. exists x. repeat split; auto.
  intros E. rewrite E in Hu. discriminate.
Qed.

Lemma candidates_in p df c tr r :
  filter_by_constraints p df = Ok (c, tr) -> In r c ->
  In r df /\ exists fs, active_predicates p = Ok fs /\ conj_all fs r = true.
Proof.
  rewrite filter_by_constraints_spec.
  destruct (active_predicates p) as [fs|]; [|discriminate].
  intros H; injection H as <- _. intros Hr. apply filter_In in Hr as [? ?].
  eauto.
Qed.

Lemma active_in t fs g pr d f :
  active t = Ok fs -> In (g, pr, d) t -> g = true -> pr = Ok f -> In f fs.
Proof.
  revert fs. induction t as [|[[g0 pr0] d0] t IH]; intros fs H Hin Hg Hpr;
    simpl in *; [contradiction|].
  destruct Hin as [E|Hin].
  - injection E as -> -> ->. rewrite Hg, Hpr in H. simpl in H.
    destruct (active t); [|discriminate]. injection H as <-. now left.
  - destruct g0.
    + destruct pr0 as [f0|]; simpl in H; [|discriminate].
      destruct (active t) as [fs'|] eqn:E; simpl in H; [|discriminate].
      injection H as <-. right. eapply IH; eauto.
    + eapply IH; eauto.
Qed.

Lemma conj_all_in fs f r : conj_all fs r = true -> In f fs -> f r = true.
Proof.
  unfold conj_all. rewrite forallb_forall. auto.
Qed.

Lemma py_in_In s l : py_in s l = true -> In s l.
Proof.
  unfold py_in. rewrite existsb_exists. intros [x [Hx E]].
  apply String.eqb_eq in E. now subst.
Qed.

Lemma keep_matches_in mh ih n hits acc e :
  In e (keep_matches mh ih n hits acc) ->
  In e acc \/ (In e hits /\ hit_test mh ih e = true).
Proof.
  revert acc. induction hits as [|h hits IH]; intros acc H; simpl in H; auto.
  destruct (py_in (meta_mahalle h) mh && py_in (meta_ilce h) ih) eqn:T.
  - destruct (Nat.leb n (List.length (acc ++ [h]))).
    + apply in_app_iff in H as [H|[<-|[]]]; auto.
      right. split; [now left|exact T].
    + apply IH in H as [H|[H1 H2]].
      * apply in_app_iff in H as [H|[<-|[]]]; auto.
        right. split; [now left|exact T].
      * right. split; [now right|exact H2].
  - apply IH in H as [H|[H1 H2]]; auto. right. split; [now right|exact H2].
Qed.

Lemma entry_to_rec_names p e rc :
  entry_to_rec p e = Ok rc ->
  rec_mahalle rc = meta_mahalle e /\ rec_ilce rc = meta_ilce e /\
  similarity rc = 1 - distance e.
Proof.
  unfold entry_to_rec. destruct (rent_fields p _); simpl; [|discriminate].
  intros H; injection H as <-. auto.
Qed.

Lemma row_to_rec_names p r rc :
  row_to_rec p r = Ok rc -> rec_mahalle rc = Mahalle r /\ rec_ilce rc = Ilce r.
Proof.
  unfold row_to_rec. destruct (rent_fields p _); simpl; [|discriminate].
  intros H; injection H as <-. auto.
Qed.

Lemma nlargest_in n c r : In r (nlargest n c) -> In r c.
Proof.
  unfold nlargest. intros H. apply in_firstn in H.
  eapply Permutation_in; [apply sort_by_welfare_perm|exact H].
Qed.

Lemma search_names_in_candidates (df : list row)
    (query : pyval -> nat -> result (list entry)) (p : prefs) (n : nat)
    (c : list row) (tr : list desc) (calls : list call)
    (recs : list recommendation) :
  filter_by_constraints p df = Ok (c, tr) ->
  search_with_constraints df query p n = (calls, Ok recs) ->
  forall rc, In rc recs ->
    In (rec_mahalle rc) (map Mahalle c) /\ In (rec_ilce rc) (map Ilce c).
Proof.
  intros Hf. unfold search_with_constraints. rewrite Hf.
  destruct (Nat.eqb (List.length c) 0).
  { intros H; injection H as _ <-. intros rc []. }
  destruct (bind _ _) as [recs'|e] eqn:E.
  - intros H; injection H as _ ->. intros rc Hrc.
    destruct (query _ _) as [hits|]; simpl in E; [|discriminate].
    apply map_result_Forall2 in E.
    destruct (Forall2_in_r _ _ _ _ E Hrc) as [en [Hen Hrec]].
    apply entry_to_rec_names in Hrec as (-> & -> & _).
    apply keep_matches_in in Hen as [[]|[_ Ht]].
    unfold hit_test in Ht. apply andb_prop in Ht as [H1 H2].
    split; now apply py_in_In.
  - intros H; injection H as _ H. intros rc Hrc.
    apply map_result_Forall2 in H.
    destruct (Forall2_in_r _ _ _ _ H Hrc) as [r [Hr Hrec]].
    apply row_to_rec_names in Hrec as [-> ->].
    apply nlargest_in in Hr. split; now apply in_map.
Qed.

(** Every recommendation, on either path, has a candidate's name and a
    candidate's district (each on its own; the pair itself need not be a
    candidate). *)
Theorem recommended_names_are_candidate_names (df : list row)
    (query : pyval -> nat -> result (list entry)) (p : prefs) (n : nat)
    (c : list row) (tr : list desc) (calls : list call)
    (recs : list recommendation) :
  filter_by_constraints p df = Ok (c, tr) ->
  search_with_constraints df query p n = (calls, Ok recs) ->
  forall rc, In rc recs ->
    In (rec_mahalle rc) (map Mahalle c) /\ In (rec_ilce rc) (map Ilce c).
Proof. apply search_names_in_candidates. Qed.

(** After [__init__] drops the rows named [Unknown], no recommendation is
    named [Unknown], on either path, even when the index (built from the
    uncleaned CSV) returns such an entry. *)
Theorem unknown_never_recommended (raws : list raw_row)
    (query : pyval -> nat -> result (list entry)) (p : prefs) (n : nat)
    (calls : list call) (recs : list recommendation) :
  search_with_constraints (load_catalog raws) query p n = (calls, Ok recs) ->
  forall rc, In rc recs -> rec_mahalle rc <> "Unknown"%string.
Proof.
  intros H rc Hrc.
  destruct (filter_by_constraints p (load_catalog raws)) as [[c tr]|e] eqn:Hf.
  - destruct (search_names_in_candidates _ _ _ _ _ _ _ _ Hf H rc Hrc)
      as [Hm _].
    apply in_map_iff in Hm as [r [<- Hr]].
    apply (candidates_in _ _ _ _ _ Hf) in Hr as [Hr _].
    apply load_catalog_in in Hr as (x & _ & Hx & ->). exact Hx.
  - unfold search_with_constraints in H. rewrite Hf in H. discriminate.
Qed.

Lemma stations_row_in_table p :
  In (truthy (min_total_stations p),
      ge_pred total_stations (min_total_stations p),
      Desc "Total Stations (bus+train+transit): >=" (min_total_stations p))
     (constraint_table p).
Proof. unfold constraint_table. simpl. tauto. Qed.

(** With a positive [min_total_stations], every candidate has at least
    one of its three station counts present in the CSV: [fillna(0)] makes a
    row with all three missing count zero stations. *)
Theorem candidates_have_a_station_count (raws : list raw_row) (p : prefs)
    (t : Q) (c : list row) (tr : list desc) :
  min_total_stations p = PNum t -> 0 < t ->
  filter_by_constraints p (load_catalog raws) = Ok (c, tr) ->
  forall r, In r c ->
  exists x, In x raws /\ r = with_total_stations x /\
    (raw_bus_station x <> None \/ raw_train_station x <> None \/
     raw_transit_station x <> None).
Proof.
  intros Hp Ht Hf r Hr.
  apply (candidates_in _ _ _ _ _ Hf) in Hr as [Hr (fs & Hfs & Hc)].
  apply load_catalog_in in Hr as (x & Hx & _ & ->). exists x. repeat split; auto.
  assert (Hin : In (fun r => Qle_bool t (total_stations r)) fs).
  { eapply active_in; [exact Hfs|apply stations_row_in_table| |].
    - rewrite Hp. apply truthy_nonzero. lra.
    - rewrite Hp. reflexivity. }
  pose proof (conj_all_in _ _ _ Hc Hin) as Hq. cbn beta in Hq.
  apply Qle_bool_iff in Hq. unfold with_total_stations in Hq. simpl in Hq.
  destruct (raw_bus_station x); [left; discriminate|].
  destruct (raw_train_station x); [right; left; discriminate|].
  destruct (raw_transit_station x); [right; right; discriminate|].
  simpl in Hq. lra.
Qed.

(** The filter of src/main_v4.py agrees with that of src/main.py, result
    and trace, whenever the preferences ask for no transit and no earthquake
    limit. *)
Theorem v4_filter_agrees (p : prefs) (df : list row) :
  truthy (min_total_stations p) = false -> max_casualties p = PNone ->
  max_severely_damaged p = PNone -> max_heavily_damaged p = PNone ->
  filter_by_constraints_v4 p df = filter_by_constraints p df.
Proof.
  intros H1 H2 H3 H4. unfold filter_by_constraints_v4, filter_by_constraints.
  rewrite H1, H2, H3, H4. repeat (apply bind_ext; intro).
  rewrite <- (bind_ret (apply_filter _ _ _ _)) at 1.
  apply bind_ext. intro. simpl. rewrite orb_false_r.
  destruct (truthy (earthquake_safe p)); reflexivity.
Qed.

Definition set_earthquake_safe (p : prefs) (v : pyval) : prefs :=
  mkPrefs (monthly_budget p) (apartment_size_sqm p) (min_parks p)
    (min_schools p) (min_restaurants p) (min_cafes p) (min_green_index p)
    (max_population p) (min_total_stations p) (max_casualties p)
    (max_severely_damaged p) (max_heavily_damaged p) v (preferences_text p).

(** [earthquake_safe] alone never changes the filter's outcome: it only
    decides whether a [max_casualties] filter, which already requires
    [max_casualties] not to be [None], is looked at. *)
Theorem earthquake_safe_never_filters (p : prefs) (v : pyval) (df : list row) :
  filter_by_constraints (set_earthquake_safe p v) df =
  filter_by_constraints p df.
Proof.
  unfold filter_by_constraints, set_earthquake_safe. cbn [earthquake_safe
    monthly_budget apartment_size_sqm min_parks min_schools min_restaurants
    min_cafes min_green_index max_population min_total_stations
    max_casualties max_severely_damaged max_heavily_damaged].
  repeat (apply bind_ext; intro).
  rewrite !apply_filter_and.
  destruct (is_not_none (max_casualties p)), (truthy v),
    (truthy (earthquake_safe p)); reflexivity.
Qed.
Lemma strongly_sorted_filter {A} (R : A -> A -> Prop) f l :
  StronglySorted R l -> StronglySorted R (filter f l).
Proof.
  induction l as [|x l IH]; intros H; simpl; [constructor|].
  apply StronglySorted_inv in H as [H1 H2].
  destruct (f x); auto. constructor; auto.
  rewrite Forall_forall in H2 |- *. intros y Hy.
  apply filter_In in Hy as [Hy _]. auto.
Qed.

Lemma strongly_sorted_firstn {A} (R : A -> A -> Prop) n l :
  StronglySorted R l -> StronglySorted R (firstn n l).
Proof.
  revert l. induction n as [|n IH]; intros l H; [constructor|].
  destruct l as [|x l]; [constructor|]. simpl.
  apply StronglySorted_inv in H as [H1 H2]. constructor; auto.
  rewrite Forall_forall in H2 |- *. intros y Hy. apply H2.
  eapply in_firstn; eauto.
Qed.

Lemma Forall_Forall2 {A B} (P : A -> Prop) (Q' : B -> Prop)
    (T : A -> B -> Prop) l1 l2 :
  (forall a b, T a b -> P a -> Q' b) ->
  Forall2 T l1 l2 -> Forall P l1 -> Forall Q' l2.
Proof.
  intros H. induction 1 as [|a b l1 l2 Hab _ IH]; intros HP; constructor.
  - inversion HP; subst. eauto.
  - inversion HP; subst. auto.
Qed.

Lemma strongly_sorted_Forall2 {A B} (R : A -> A -> Prop) (S : B -> B -> Prop)
    (T : A -> B -> Prop) l1 l2 :
  (forall a a' b b', T a b -> T a' b' -> R a a' -> S b b') ->
  Forall2 T l1 l2 -> StronglySorted R l1 -> StronglySorted S l2.
Proof.
  intros HRS. induction 1 as [|a b l1 l2 Hab Hl IH]; intros H; [constructor|].
  apply StronglySorted_inv in H as [H1 H2]. constructor; auto.
  eapply (Forall_Forall2 (R a) (S b)); [|exact Hl|exact H2].
  intros a' b' Hab' Hr. eauto.
Qed.

(** On the semantic path, with [n_results >= 1] and the index's hits
    ranked by increasing distance, at most [n_results] recommendations are
    returned, ranked by decreasing similarity. *)
Theorem semantic_results_ranked (df : list row)
    (query : pyval -> nat -> result (list entry)) (p : prefs) (n : nat)
    (c : list row) (tr : list desc) (hits : list entry)
    (recs : list recommendation) :
  filter_by_constraints p df = Ok (c, tr) -> c <> [] -> (1 <= n)%nat ->
  query (query_text p) (oversample df) = Ok hits ->
  StronglySorted (fun a b => distance a <= distance b) hits ->
  search_with_constraints df query p n =
    ([CallIndex (query_text p) (oversample df)], Ok recs) ->
  (List.length recs <= n)%nat /\
  StronglySorted (fun a b => similarity b <= similarity a) recs.
Proof.
  intros Hf Hc Hn Hq Hs. unfold search_with_constraints. rewrite Hf.
  destruct c as [|r c']; [contradiction|]. cbn [List.length Nat.eqb].
  unfold query_text, oversample in Hq. rewrite Hq. cbn [bind].
  rewrite keep_matches_firstn by exact Hn.
  destruct (map_result _ _) as [recs'|e] eqn:E; intros H; inversion H; subst.
  apply map_result_Forall2 in E. split.
  - apply Forall2_length in E. rewrite <- E. apply firstn_le_length.
  - eapply (strongly_sorted_Forall2
             (fun a b => distance a <= distance b)); [|exact E|].
    + intros a a' b b' Hab Hab' Hd. cbv beta in *.
      apply entry_to_rec_names in Hab as (_ & _ & ->).
      apply entry_to_rec_names in Hab' as (_ & _ & ->). lra.
    + apply strongly_sorted_firstn, strongly_sorted_filter, Hs.
Qed.

(** The fallback returns exactly [min(n_results, len(filtered_df))]
    recommendations. *)
Theorem fallback_count (df : list row)
    (query : pyval -> nat -> result (list entry)) (p : prefs) (n : nat)
    (calls : list call) (recs : list recommendation) :
  search_with_constraints df query p n = (calls, Ok recs) ->
  In (CallFallback n) calls ->
  exists c tr, filter_by_constraints p df = Ok (c, tr) /\
    List.length recs = Nat.min n (List.length c).
Proof.
  intros H Hin. destruct (search_fallback_inv _ _ _ _ _ _ H Hin)
    as (c & tr & Hf & Hr). exists c, tr. split; [exact Hf|].
  symmetry in Hr. apply map_result_Forall2, Forall2_length in Hr.
  rewrite <- Hr. unfold nlargest. rewrite length_firstn.
  now rewrite (Permutation_length (sort_by_welfare_perm c)).
Qed.

Definition entry_A : entry := mkEntry "D1_A" "A" "D1" (Some 300) (1 # 10).
Definition entry_B2 : entry := mkEntry "D2_B" "B" "D2" (Some 600) (2 # 10).
Definition entry_C : entry := mkEntry "D1_C" "C" "D1" (Some 400) (3 # 10).
Definition ranked_index (t : pyval) (k : nat) : result (list entry) :=
  Ok [entry_A; entry_B2; entry_C].

Lemma semantic_results_ranked_witness :
  exists recs,
  search_with_constraints catalog3 ranked_index scenario_prefs 3 =
    ([CallIndex (query_text scenario_prefs) (oversample catalog3)], Ok recs) /\
  (List.length recs <= 3)%nat /\
  StronglySorted (fun a b => similarity b <= similarity a) recs.
Proof.
  eexists. split; [vm_compute; reflexivity|].
  apply (semantic_results_ranked catalog3 ranked_index scenario_prefs 3
           [row_A; row_C] scenario_trace [entry_A; entry_B2; entry_C]).
  - vm_compute. reflexivity.
  - discriminate.
  - lia.
  - reflexivity.
  - repeat constructor; cbn; lra.
  - vm_compute. reflexivity.
Defined.

Lemma fallback_count_witness :
  exists recs,
  search_with_constraints catalog3 failing_index scenario_prefs 3 =
    ([CallIndex (query_text scenario_prefs) (oversample catalog3);
      CallFallback 3], Ok recs) /\
  exists c tr, filter_by_constraints scenario_prefs catalog3 = Ok (c, tr) /\
    List.length recs = Nat.min 3 (List.length c).
Proof.
  eexists. split; [vm_compute; reflexivity|].
  eapply (fallback_count catalog3 failing_index scenario_prefs 3).
  - vm_compute. reflexivity.
  - simpl. auto.
Defined.

Definition dup_rows : list csv_row :=
  [mkCsv "Merkez" "Kadikoy" 41 29 []; mkCsv "Merkez" "Kadikoy" 40 28 [];
   mkCsv "Merkez 1" "Kadikoy" 41 29 []].

Lemma doc_id_of_row_witness :
  nth_error (map base_id dup_rows) 1 = Some "Kadikoy_Merkez"%string /\
  nth_error (create_vector_db_ids dup_rows) 1 =
    Some (id_for "Kadikoy_Merkez"
            (count_occ string_dec (firstn 1 (map base_id dup_rows))
               "Kadikoy_Merkez"%string)) /\
  nth_error (create_vector_db_ids dup_rows) 1 =
    Some "Kadikoy_Merkez_1"%string.
Proof.
  split; [vm_compute; reflexivity|]. split.
  - apply doc_id_of_row. vm_compute. reflexivity.
  - vm_compute. reflexivity.
Defined.

Lemma distinct_names_keep_base_ids_witness :
  NoDup (map base_id [mkCsv "Merkez" "Kadikoy" 41 29 [];
                      mkCsv "Merkez" "Besiktas" 41 29 []]) /\
  create_vector_db_ids [mkCsv "Merkez" "Kadikoy" 41 29 [];
                        mkCsv "Merkez" "Besiktas" 41 29 []] =
    map base_id [mkCsv "Merkez" "Kadikoy" 41 29 [];
                 mkCsv "Merkez" "Besiktas" 41 29 []].
Proof.
  assert (H : NoDup (map base_id [mkCsv "Merkez" "Kadikoy" 41 29 [];
                                  mkCsv "Merkez" "Besiktas" 41 29 []])).
  { vm_compute. constructor; [|constructor; [intros []|constructor]].
    intros [H|[]]. discriminate H. }
  split; [exact H|]. apply distinct_names_keep_base_ids. exact H.
Defined.

Lemma doc_ids_can_collide_witness :
  base_id (nth 1 dup_rows (mkCsv EmptyString EmptyString 0 0 [])) =
    base_id (nth 0 dup_rows (mkCsv EmptyString EmptyString 0 0 [])) /\
  create_vector_db_ids dup_rows =
    ["Kadikoy_Merkez"; "Kadikoy_Merkez_1"; "Kadikoy_Merkez_1"]%string /\
  ~ NoDup (create_vector_db_ids dup_rows).
Proof.
  split; [vm_compute; reflexivity|].
  split; [vm_compute; reflexivity|].
  apply (doc_ids_can_collide (mkCsv "Merkez" "Kadikoy" 41 29 [])
           (mkCsv "Merkez" "Kadikoy" 40 28 [])
           (mkCsv "Merkez 1" "Kadikoy" 41 29 []));
    vm_compute; reflexivity.
Defined.

Lemma recommended_names_are_candidate_names_witness :
  exists recs,
  filter_by_constraints budget_only_prefs catalog_amb =
    Ok ([row_A; row_B2], [Desc "Budget: <=" (PNum 32000)]) /\
  search_with_constraints catalog_amb index_BX budget_only_prefs 3 =
    ([CallIndex (query_text budget_only_prefs) (oversample catalog_amb)],
     Ok recs) /\
  forall rc, In rc recs ->
    In (rec_mahalle rc) (map Mahalle [row_A; row_B2]) /\
    In (rec_ilce rc) (map Ilce [row_A; row_B2]).
Proof.
  eexists.
  assert (Hf : filter_by_constraints budget_only_prefs catalog_amb =
    Ok ([row_A; row_B2], [Desc "Budget: <=" (PNum 32000)]))
    by (vm_compute; reflexivity).
  assert (Hs : search_with_constraints catalog_amb index_BX budget_only_prefs 3 =
    ([CallIndex (query_text budget_only_prefs) (oversample catalog_amb)],
     Ok [mkRec "B" "D1" (1 - distance entry_BX) (Some (600 * 80))
           (Some (32000 - 600 * 80)) (MetaIndex entry_BX)]))
    by (vm_compute; reflexivity).
  split; [exact Hf|]. split; [exact Hs|].
  exact (recommended_names_are_candidate_names _ _ _ _ _ _ _ _ Hf Hs).
Defined.

Definition raw_A : raw_row :=
  mkRaw "A" "D1" 300 2 1 1 1 (1 # 2) (9 # 10) 1000 (Some 1) None (Some 2)
        (Some 0) (Some 0) (Some 0).
Definition raw_U : raw_row :=
  mkRaw "Unknown" "D1" 100 5 5 5 5 1 1 10 (Some 3) None None None None None.
Definition raw_N : raw_row :=
  mkRaw "N" "D2" 200 4 4 4 4 1 1 500 None None None (Some 0) (Some 0)
        (Some 0).
Definition entry_U : entry := mkEntry "D1_Unknown" "Unknown" "D1" (Some 100) (1 # 20).
Definition index_U (t : pyval) (k : nat) : result (list entry) :=
  Ok [entry_U; entry_A].

Lemma unknown_never_recommended_witness :
  exists calls recs,
  search_with_constraints (load_catalog [raw_A; raw_U]) index_U
    empty_preferences 3 = (calls, Ok recs) /\
  map rec_mahalle recs = ["A"%string] /\
  forall rc, In rc recs -> rec_mahalle rc <> "Unknown"%string.
Proof.
  assert (Hs : search_with_constraints (load_catalog [raw_A; raw_U]) index_U
    empty_preferences 3 =
    ([CallIndex (query_text empty_preferences)
        (oversample (load_catalog [raw_A; raw_U]))],
     Ok [mkRec "A" "D1" (1 - distance entry_A) None None (MetaIndex entry_A)]))
    by (vm_compute; reflexivity).
  do 2 eexists. split; [exact Hs|].
  split; [vm_compute; reflexivity|].
  exact (unknown_never_recommended _ _ _ _ _ _ Hs).
Defined.

Lemma candidates_have_a_station_count_witness :
  filter_by_constraints
    (prefs_with_thresholds PNone PNone PNone (PNum 1) PNone)
    (load_catalog [raw_A; raw_N]) =
    Ok ([with_total_stations raw_A],
        [Desc "Total Stations (bus+train+transit): >=" (PNum 1)]) /\
  forall r, In r [with_total_stations raw_A] ->
  exists x, In x [raw_A; raw_N] /\ r = with_total_stations x /\
    (raw_bus_station x <> None \/ raw_train_station x <> None \/
     raw_transit_station x <> None).
Proof.
  split; [vm_compute; reflexivity|].
  apply (candidates_have_a_station_count [raw_A; raw_N]
           (prefs_with_thresholds PNone PNone PNone (PNum 1) PNone) 1 _
           [Desc "Total Stations (bus+train+transit): >=" (PNum 1)]);
    [reflexivity|lra|vm_compute; reflexivity].
Defined.

Lemma v4_filter_agrees_witness :
  filter_by_constraints_v4 scenario_prefs catalog3 =
    filter_by_constraints scenario_prefs catalog3 /\
  filter_by_constraints_v4 scenario_prefs catalog3 =
    Ok ([row_A; row_C], scenario_trace).
Proof.
  split.
  - apply v4_filter_agrees; reflexivity.
  - vm_compute. reflexivity.
Defined.
